(** * MODIS land-cover export script for Maranhao: model and properties

    Shallow embedding of [src/Deforestation/005_ExportModisMoranhao.js],
    an Earth Engine Code Editor script.  The script itself is client-side
    JavaScript that composes calls of the Earth Engine API ([ee.*],
    [print], [Export.image.toDrive]); the API is an external collaborator
    and is modelled in [Module EE] after its documented behaviour, the
    script in [Module Script] statement by statement. *)

From Stdlib Require Import ZArith QArith Lia List Bool.
From stdpp Require Import base list strings pretty gmap.

Local Open Scope Z_scope.

(** ** Calendar arithmetic (UTC, proleptic Gregorian)

    Earth Engine dates are instants: milliseconds since 1970-01-01T00:00Z.
    [ee.Date.fromYMD], [Date.advance(_, 'year')] and
    [ee.Filter.calendarRange(_, _, 'year')] all go through the civil
    calendar in UTC. *)
Module Calendar.

Definition msPerDay : Z := 86400000.

(** Days since 1970-01-01 of the civil date [y]-[m]-[d]. *)
Definition days_from_civil (y m d : Z) : Z :=
  let y' := if m <=? 2 then y - 1 else y in
  let era := y' / 400 in
  let yoe := y' - era * 400 in
  let mp := if m <=? 2 then m + 9 else m - 3 in
  let doy := (153 * mp + 2) / 5 + d - 1 in
  let doe := yoe * 365 + yoe / 4 - yoe / 100 + doy in
  era * 146097 + doe - 719468.

(** Civil date (year, month, day) of a day number. *)
Definition civil_from_days (z : Z) : Z * Z * Z :=
  let z' := z + 719468 in
  let era := z' / 146097 in
  let doe := z' - era * 146097 in
  let yoe := (doe - doe / 1460 + doe / 36524 - doe / 146096) / 365 in
  let doy := doe - (365 * yoe + yoe / 4 - yoe / 100) in
  let mp := (5 * doy + 2) / 153 in
  let d := doy - (153 * mp + 2) / 5 + 1 in
  let m := if mp <? 10 then mp + 3 else mp - 9 in
  let y := yoe + era * 400 in
  (if m <=? 2 then y + 1 else y, m, d).

Definition is_leap (y : Z) : bool :=
  (y mod 4 =? 0) && (negb (y mod 100 =? 0) || (y mod 400 =? 0)).

Definition days_in_month (y m : Z) : Z :=
  if m =? 2 then (if is_leap y then 29 else 28)
  else if (m =? 4) || (m =? 6) || (m =? 9) || (m =? 11) then 30
  else 31.

(** First day of the calendar year [y]. *)
Definition year_start (y : Z) : Z := days_from_civil y 1 1.

Definition year_of_days (z : Z) : Z := fst (fst (civil_from_days z)).

(** [all_from n z] checks [test] on the [n] integers from [z] upwards. *)
Fixpoint all_from (test : Z -> bool) (n : nat) (z : Z) : bool :=
  match n with
  | O => true
  | S n' => test z && all_from test n' (z + 1)
  end.

(** The two checks run over one 400-year cycle in [CalendarFacts]. *)
Definition day_in_own_year (z : Z) : bool :=
  let y := year_of_days z in
  (year_start y <=? z) && (z <? year_start (y + 1)).

Definition year_roundtrip (y : Z) : bool :=
  let '(y', m, d) := civil_from_days (year_start y) in
  (y' =? y) && (m =? 1) && (d =? 1) &&
  (year_start y <? year_start (y + 1)).

End Calendar.

(** ** The Earth Engine API, as far as the script uses it

    Server-side objects ([ee.Image], [ee.Number], [ee.Dictionary]) are
    deferred: client calls only describe a computation, nothing is thrown
    on the client, and an error shows up when a value is finally requested
    ([print], a running export task).  A deferred value is modelled by the
    result its evaluation gives, [computed A]. *)
Module EE.

Inductive ee_error : Type :=
  | NullInput (fn : string)   (* "fn: Parameter 'input' is required" *)
  | TooManyPixels.            (* "Too many pixels in the region" *)

Inductive computed (A : Type) : Type :=
  | Val (a : A)
  | Err (e : ee_error).
Arguments Val {A} a.
Arguments Err {A} e.

#[global] Instance computed_ret : MRet computed := fun A a => Val a.
#[global] Instance computed_bind : MBind computed := fun A B k m =>
  match m with
  | Val a => k a
  | Err e => Err e
  end.
#[global] Instance computed_fmap : FMap computed := fun A B f m =>
  match m with
  | Val a => Val (f a)
  | Err e => Err e
  end.

Definition is_err {A} (m : computed A) : bool :=
  match m with Val _ => false | Err _ => true end.

(** *** Dates *)

Definition Date : Type := Z.   (* milliseconds since the epoch, UTC *)

(** [ee.Date.fromYMD(year, month, day)]: midnight UTC of that day. *)
Definition Date_fromYMD (year month day : Z) : Date :=
  Calendar.days_from_civil year month day * Calendar.msPerDay.

(** [date.get('year')]. *)
Definition Date_year (t : Date) : Z :=
  Calendar.year_of_days (t / Calendar.msPerDay).

(** [date.advance(delta, 'year')]: same month, day and time of day
    [delta] years later; the 29th of February falls back to the 28th. *)
Definition Date_advance_year (delta : Z) (t : Date) : Date :=
  let '(y, m, d) := Calendar.civil_from_days (t / Calendar.msPerDay) in
  let d' := Z.min d (Calendar.days_in_month (y + delta) m) in
  Calendar.days_from_civil (y + delta) m d' * Calendar.msPerDay
  + t mod Calendar.msPerDay.

(** *** Geometry, pixels, images *)

(** [ee.Geometry.Rectangle([xMin, yMin, xMax, yMax])], degrees. *)
Record Rectangle : Type := mkRectangle
  { xMin : Q; yMin : Q; xMax : Q; yMax : Q }.

(** One cell of a single-band categorical raster: the position of its
    centre and its class code, [None] where the cell is masked. *)
Record Pixel : Type := mkPixel
  { lon : Q; lat : Q; value : option Z }.

(** An image of the collection, one band ([LC_Type1]): its acquisition
    instant ([system:time_start]) and, for every requested scale in
    metres, the cells the backend delivers at that scale. *)
Record Image : Type := mkImage
  { time_start : Date; grid : Z -> list Pixel }.

Definition ImageCollection : Type := list Image.
Definition Filter : Type := Image -> bool.

Definition inside (g : Rectangle) (p : Pixel) : bool :=
  Qle_bool (xMin g) (lon p) && Qle_bool (lon p) (xMax g) &&
  Qle_bool (yMin g) (lat p) && Qle_bool (lat p) (yMax g).

(** *** Collections *)

(** [ee.Filter.calendarRange(start, end, 'year')]: the UTC year of the
    acquisition instant lies in [start .. end], both ends included; with
    [end < start] the range wraps (at least [start] or at most [end]). *)
Definition Filter_calendarRange_year (start end_ : Z) : Filter :=
  fun img => let y := Date_year (time_start img) in
             if end_ <? start then (start <=? y) || (y <=? end_)
             else (start <=? y) && (y <=? end_).

(** [collection.filter(f)]. *)
Definition filter (f : Filter) (c : ImageCollection) : ImageCollection :=
  List.filter f c.

(** [collection.filterDate(start, end)]: [start] is included, [end] is
    excluded. *)
Definition filterDate (start end_ : Date) (c : ImageCollection)
  : ImageCollection :=
  List.filter (fun img => (start <=? time_start img) && (time_start img <? end_)) c.

(** [collection.first()]: the first image, null for an empty collection. *)
Definition first (c : ImageCollection) : option Image := head c.

(** [collection.size()]. *)
Definition size (c : ImageCollection) : Z := Z.of_nat (length c).

(** [ee.List.sequence(start, end)], step 1, both ends included. *)
Definition List_sequence (start end_ : Z) : list Z :=
  seqZ start (end_ - start + 1).

(** *** Image algebra (cell by cell, at whatever scale is requested) *)

Definition map_cell (f : Z -> Z) (p : Pixel) : Pixel :=
  {| lon := lon p; lat := lat p; value := f <$> value p |}.

Definition zip_cell (f : Z -> Z -> Z) (p q : Pixel) : Pixel :=
  {| lon := lon p; lat := lat p;
     value := match value p, value q with
              | Some x, Some y => Some (f x y)
              | _, _ => None
              end |}.

Definition clip_cell (g : Rectangle) (p : Pixel) : Pixel :=
  {| lon := lon p; lat := lat p;
     value := if inside g p then value p else None |}.

Definition map_image (f : Z -> Z) (img : Image) : Image :=
  {| time_start := time_start img;
     grid := fun s => map (map_cell f) (grid img s) |}.

Definition zip_image (f : Z -> Z -> Z) (a b : Image) : Image :=
  {| time_start := time_start a;
     grid := fun s => zip_with (zip_cell f) (grid a s) (grid b s) |}.

Definition Z_of_bool (b : bool) : Z := if b then 1 else 0.

Definition gte_px (k v : Z) : Z := Z_of_bool (k <=? v).
Definition lte_px (k v : Z) : Z := Z_of_bool (v <=? k).
Definition eq_px (k v : Z) : Z := Z_of_bool (v =? k).
Definition and_px (x y : Z) : Z := Z_of_bool (negb (x =? 0) && negb (y =? 0)).
Definition or_px (x y : Z) : Z := Z_of_bool (negb (x =? 0) || negb (y =? 0)).

(** [image.gte(k)], [image.lte(k)], [image.eq(k)]: 1 where the
    comparison holds, 0 elsewhere; masked cells stay masked. *)
Definition gte (image : computed Image) (k : Z) : computed Image :=
  map_image (gte_px k) <$> image.
Definition lte (image : computed Image) (k : Z) : computed Image :=
  map_image (lte_px k) <$> image.
Definition eq (image : computed Image) (k : Z) : computed Image :=
  map_image (eq_px k) <$> image.

(** [a.and(b)], [a.or(b)]: 1 where both (either) are non-zero. *)
Definition and (a b : computed Image) : computed Image :=
  x ← a; y ← b; mret (zip_image and_px x y).
Definition or (a b : computed Image) : computed Image :=
  x ← a; y ← b; mret (zip_image or_px x y).

Definition clip_image (g : Rectangle) (img : Image) : Image :=
  {| time_start := time_start img;
     grid := fun s => map (clip_cell g) (grid img s) |}.

(** [image.clip(geometry)]: masks every cell outside the geometry.  The
    receiver may be the null result of [first()]; evaluation then fails
    with "Image.clip: Parameter 'input' is required". *)
Definition clip (image : option Image) (g : Rectangle) : computed Image :=
  match image with
  | Some img => Val (clip_image g img)
  | None => Err (NullInput "Image.clip")
  end.

(** *** Region reduction *)

(** The cells of [img] at [scale] whose centre lies in the geometry. *)
Definition region_pixels (g : Rectangle) (scale : Z) (img : Image)
  : list Pixel :=
  List.filter (inside g) (grid img scale).

(** Values of the unmasked cells. *)
Definition unmasked (ps : list Pixel) : list Z := omap value ps.

Definition sum_values (vs : list Z) : Z := fold_right Z.add 0 vs.

Definition Histogram : Type := gmap Z Z.

Definition count_value (v : Z) (h : Histogram) : Histogram :=
  <[ v := default 0 (h !! v) + 1 ]> h.

Definition histogram_of (vs : list Z) : Histogram :=
  fold_right count_value ∅ vs.

(** [image.reduceRegion({reducer, geometry, scale, maxPixels})] followed
    by [.get('LC_Type1')], for the two reducers of the script.  The
    request fails when the region holds more than [maxPixels] cells.
    A cell belongs to the region when its centre does and counts whole;
    the fractional weights the backend gives to cells cut by the boundary
    are not part of this model.  Nor are the failures that depend on the
    state of the service rather than on the request (quota, authentication,
    time-out): the model describes a request the service answers, so a
    value below means "the value, if the service answers". *)
Definition reduceRegion {A} (reducer : list Z -> A) (image : computed Image)
    (geometry : Rectangle) (scale maxPixels : Z) : computed A :=
  img ← image;
  let ps := region_pixels geometry scale img in
  if maxPixels <? Z.of_nat (length ps) then Err TooManyPixels
  else Val (reducer (unmasked ps)).

(** [ee.Reducer.sum()] and [ee.Reducer.frequencyHistogram()]. *)
Definition Reducer_sum (vs : list Z) : Q := inject_Z (sum_values vs).
Definition Reducer_frequencyHistogram (vs : list Z) : Histogram :=
  histogram_of vs.

(** [ee.Number(x).multiply(k)].  Numbers are exact rationals; the
    script's products (a cell count of at most [maxPixels] times 0.25) are
    exact in double precision as well. *)
Definition multiply (x : computed Q) (k : Q) : computed Q :=
  (fun v => (v * k)%Q) <$> x.

End EE.

(** ** The script *)
Module Script.
Import EE.

(** What [print] shows next to its label. *)
Inductive printed : Type :=
  | PNone
  | PSize (n : Z)
  | PNumber (x : computed Q)
  | PHistogram (h : computed Histogram).

(** An export request as handed to [Export.image.toDrive]. *)
Record ExportTask : Type := mkExportTask
  { image : computed Image;
    description : string;
    folder : string;
    fileNamePrefix : string;
    region : Rectangle;
    scale : Z;
    crs : string;
    maxPixels : Z;
    fileFormat : string }.

(** Everything the script leaves behind: the console lines and the
    tasks of the Tasks tab, both in order of creation.  The [Map] calls
    only draw and are left out. *)
Record State : Type := mkState
  { console : list (string * printed);
    tasks : list ExportTask }.

Definition initial : State := {| console := []; tasks := [] |}.

Definition print (label : string) (v : printed) (st : State) : State :=
  {| console := console st ++ [(label, v)]; tasks := tasks st |}.

Definition Export_image_toDrive (t : ExportTask) (st : State) : State :=
  {| console := console st; tasks := tasks st ++ [t] |}.

(** [array.forEach(f)] for a callback that acts on the script state. *)
Definition forEach {A} (f : A -> State -> State) (l : list A) (st : State)
  : State :=
  fold_left (fun s x => f x s) l st.

Definition problematicYears : list Z := [2007; 2013; 2016; 2020].

(** [var maranhao = ee.Geometry.Rectangle([...])]. *)
Definition maranhao : Rectangle :=
  {| xMin := (-48.75515073699995)%Q; yMin := (-10.261764701999937)%Q;
     xMax := (-41.796069069999874)%Q; yMax := (-1.0493281209999736)%Q |}.

Section WithCatalog.

(** [ee.ImageCollection('MODIS/061/MCD12Q1').select('LC_Type1')]: the
    frames of the backend catalogue, reduced to the one band used. *)
Variable catalog : ImageCollection.

(** [var mcd12 = ... .filterDate('2001-01-01', '2024-12-31')]; a date
    string without time of day is midnight UTC of that day. *)
Definition mcd12 : ImageCollection :=
  filterDate (Date_fromYMD 2001 1 1) (Date_fromYMD 2024 12 31) catalog.

(** [var lc2020], the layer shown on the map (lines 24-26). *)
Definition lc2020 : computed Image :=
  clip (first (filter (Filter_calendarRange_year 2020 2020) mcd12)) maranhao.

(** The frame [analyzeLandCover] works on (lines 41-43). *)
Definition analysisImage (year : Z) : computed Image :=
  clip (first (filter (Filter_calendarRange_year year year) mcd12)) maranhao.

(** Lines 46-51. *)
Definition histogram (image : computed Image) : computed Histogram :=
  reduceRegion Reducer_frequencyHistogram image maranhao 500 (10 ^ 13).

(** Lines 56-67: forest, classes 1-5. *)
Definition forest (image : computed Image) : computed Image :=
  and (gte image 1) (lte image 5).
Definition forestPixelCount (image : computed Image) : computed Q :=
  reduceRegion Reducer_sum (forest image) maranhao 500 (10 ^ 13).
Definition forestAreaKm2 (image : computed Image) : computed Q :=
  multiply (forestPixelCount image) 0.25.

(** Lines 73-80: savanna and shrub, classes 6-9. *)
Definition savanna (image : computed Image) : computed Image :=
  and (gte image 6) (lte image 9).
Definition savannaAreaKm2 (image : computed Image) : computed Q :=
  multiply (reduceRegion Reducer_sum (savanna image) maranhao 500 (10 ^ 13)) 0.25.

(** Lines 84-91: agriculture, classes 12 and 14. *)
Definition cropland (image : computed Image) : computed Image :=
  or (eq image 12) (eq image 14).
Definition cropAreaKm2 (image : computed Image) : computed Q :=
  multiply (reduceRegion Reducer_sum (cropland image) maranhao 500 (10 ^ 13)) 0.25.

(** Years are integers; ['Year ' + year] prints them in decimal, as
    [pretty] does. *)
Definition analyzeLandCover (year : Z) (st : State) : State :=
  let image := analysisImage year in
  let st := print ("Year " +:+ pretty year +:+ " - Land Cover Classes:")
                  (PHistogram (histogram image)) st in
  let st := print ("Year " +:+ pretty year +:+ " - Forest pixels:")
                  (PNumber (forestPixelCount image)) st in
  let st := print ("Year " +:+ pretty year +:+ " - Forest area (km²):")
                  (PNumber (forestAreaKm2 image)) st in
  let st := print ("Year " +:+ pretty year +:+ " - Savanna/Shrub area (km²):")
                  (PNumber (savannaAreaKm2 image)) st in
  print ("Year " +:+ pretty year +:+ " - Agriculture area (km²):")
        (PNumber (cropAreaKm2 image)) st.

(** The frame [exportYear] exports (lines 101-107). *)
Definition exportImage (year : Z) : computed Image :=
  let startDate := Date_fromYMD year 1 1 in
  let endDate := Date_advance_year 1 startDate in
  clip (first (filterDate startDate endDate mcd12)) maranhao.

Definition exportYear (year : Z) (st : State) : State :=
  Export_image_toDrive
    {| image := exportImage year;
       description := "MCD12Q1_Maranhao_" +:+ pretty year;
       folder := "MODIS_Land_Cover_Maranhao";
       fileNamePrefix := "MCD12Q1_Maranhao_" +:+ pretty year;
       region := maranhao;
       scale := 500;
       crs := "EPSG:4326";
       maxPixels := 10 ^ 13;
       fileFormat := "GeoTIFF" |} st.

(** The whole script, top to bottom; the callback of [years.evaluate]
    runs once the list of years has come back, after the last [print]. *)
Definition script : State :=
  let st := print "Total images available:" (PSize (size mcd12)) initial in
  let st := print "NOTE: MODIS MCD12Q1 starts in 2001 (no 2000 data available)"
                  PNone st in
  let st := print "Checking problematic years:" PNone st in
  let st := print "=== ANALYZING KEY YEARS ===" PNone st in
  let st := forEach analyzeLandCover [2001; 2005; 2010; 2015; 2020; 2024] st in
  let st := print "=== READY TO EXPORT ===" PNone st in
  let st := print "Click the Tasks tab and run each export task" PNone st in
  let years := List_sequence 2001 2024 in
  forEach exportYear years st.

End WithCatalog.

End Script.

(** ** The class tests of the script, cell by cell

    What lines 56, 73 and 84 compute for a cell of class code [c]. *)
Module Cells.
Import EE.

Definition forest_code (c : Z) : Z := and_px (gte_px 1 c) (lte_px 5 c).
Definition savanna_code (c : Z) : Z := and_px (gte_px 6 c) (lte_px 9 c).
Definition cropland_code (c : Z) : Z := or_px (eq_px 12 c) (eq_px 14 c).

(** A cell after clipping to [g] and then applying the test [m]. *)
Definition masked_cell (g : Rectangle) (m : Z -> Z) (p : Pixel) : Pixel :=
  map_cell m (clip_cell g p).

End Cells.

(** ** Vocabulary of the specification

    The quantities the properties below are stated in, following the
    wording of the specification rather than the code. *)
Module Spec.
Import EE.

(** Area of one cell in square kilometres: (scaleMeters / 1000) squared. *)
Definition pixel_area_km2 (scaleMeters : Z) : Q :=
  ((inject_Z scaleMeters / 1000) * (inject_Z scaleMeters / 1000))%Q.

(** The canonical class groups. *)
Definition Forest : list Z := [1; 2; 3; 4; 5].
Definition Savanna : list Z := [6; 7; 8; 9].
Definition Agriculture : list Z := [12; 14].

Definition in_group (group : list Z) (c : Z) : bool :=
  existsb (Z.eqb c) group.

(** A cell counts for a group when it lies in the region, is not masked
    and carries one of the group's codes. *)
Definition matches (group : list Z) (g : Rectangle) (p : Pixel) : bool :=
  inside g p &&
  match value p with
  | Some c => in_group group c
  | None => false
  end.

Definition matched_pixel_count (group : list Z) (g : Rectangle) (scale : Z)
    (frame : Image) : Z :=
  Z.of_nat (length (List.filter (matches group g) (grid frame scale))).

(** Number of cells of the frame inside the region. *)
Definition roi_pixel_count (g : Rectangle) (scale : Z) (frame : Image) : Z :=
  Z.of_nat (length (region_pixels g scale frame)).

(** The deferred number [m] evaluates to [n] cells' worth of area. *)
Definition area_of_pixels (scaleMeters : Z) (m : computed Q) (n : Z) : Prop :=
  exists a : Q, m = Val a /\ (a == inject_Z n * pixel_area_km2 scaleMeters)%Q.

(** The frame with one more cell at every scale. *)
Definition add_pixel (p : Pixel) (frame : Image) : Image :=
  {| time_start := time_start frame; grid := fun s => p :: grid frame s |}.

(** Value of cell [i] of a deferred image at scale [s]. *)
Definition mask_at (m : computed Image) (s : Z) (i : nat) : option Z :=
  match m with
  | Val img => grid img s !! i ≫= value
  | Err _ => None
  end.

End Spec.

(** ** Sample data: a 4 x 4 raster and small catalogues *)
Module Samples.
Import EE.

(** Cell centres 0.005 degrees apart; the western column lies outside
    Maranhao, the other twelve cells inside. *)
Definition cell (i j : Z) (v : option Z) : Pixel :=
  {| lon := (-48.7575 + 0.005 * inject_Z i)%Q;
     lat := (-5 + 0.005 * inject_Z j)%Q;
     value := v |}.

Definition raster4x4 : list Pixel :=
  [ cell 0 0 (Some 2); cell 1 0 (Some 2); cell 2 0 (Some 2); cell 3 0 (Some 2);
    cell 0 1 (Some 2); cell 1 1 (Some 2); cell 2 1 (Some 2); cell 3 1 (Some 2);
    cell 0 2 (Some 9); cell 1 2 (Some 9); cell 2 2 (Some 12); cell 3 2 (Some 14);
    cell 0 3 (Some 10); cell 1 3 (Some 13); cell 2 3 (Some 17); cell 3 3 None ].

(** The raster as the frame of a given instant, delivered at 500 m. *)
Definition frame_at (t : Date) : Image :=
  {| time_start := t;
     grid := fun s => if s =? 500 then raster4x4 else [] |}.

Definition frame2001 : Image := frame_at (Date_fromYMD 2001 1 1).
Definition frame2003 : Image := frame_at (Date_fromYMD 2003 1 1).
Definition frame2024 : Image := frame_at (Date_fromYMD 2024 1 1).
Definition frame_end_date : Image := frame_at (Date_fromYMD 2024 12 31).

(** A catalogue with no frame for 2002. *)
Definition catalog_gap : ImageCollection := [frame2001; frame2003].

End Samples.

(** ** Counting vocabulary for the histogram and the export loop *)
Module Stats.
Import EE.

(** The class codes a region reduction sees: the unmasked cells of the
    frame whose centre lies in the geometry. *)
Definition region_values (g : Rectangle) (scale : Z) (frame : Image) : list Z :=
  unmasked (region_pixels g scale frame).

(** Number of occurrences of the code [c]. *)
Definition code_count (c : Z) (vs : list Z) : Z :=
  Z.of_nat (length (List.filter (Z.eqb c) vs)).

(** The entry of a histogram, 0 for a code without entry. *)
Definition hist_get (h : Histogram) (c : Z) : Z := default 0 (h !! c).

(** All entries of a histogram added up. *)
Definition hist_total (h : Histogram) : Z :=
  map_fold (fun _ n acc => n + acc) 0 h.

(** The entries of a histogram for the codes of a group, added up. *)
Definition hist_group (h : Histogram) (group : list Z) : Z :=
  sum_values (map (hist_get h) group).

(** The length of year [y] in days agrees with the leap-year rule. *)
Definition year_length_ok (y : Z) : bool :=
  Calendar.year_start (y + 1) - Calendar.year_start y =?
  (if Calendar.is_leap y then 366 else 365).

(** A second frame of 2001, acquired in June. *)
Definition frame2001_june : Image := Samples.frame_at (Date_fromYMD 2001 6 1).

(** A frame of 2001 none of whose cells lies in Maranhao. *)
Definition frame_elsewhere : Image :=
  {| time_start := Date_fromYMD 2001 1 1;
     grid := fun _ => [ {| lon := (-60)%Q; lat := (-5)%Q; value := Some 2 |};
                        {| lon := (-45)%Q; lat := 10%Q; value := Some 9 |} ] |}.

End Stats.

(** ** Facts about the calendar *)
Module CalendarFacts.
Import Calendar.

Lemma all_from_spec test n : forall z,
  all_from test n z = true ->
  forall k, z <= k < z + Z.of_nat n -> test k = true.
Proof.
  induction n as [|n IH]; intros z H k Hk.
  - simpl in Hk. lia.
  - simpl in H. apply andb_prop in H as [Hz Hrest].
    destruct (Z.eq_dec k z) as [->|Hne]; [exact Hz|].
    apply (IH (z + 1) Hrest). lia.
Qed.

Example days_of_known_dates :
  days_from_civil 1970 1 1 = 0 /\ days_from_civil 1969 12 31 = -1 /\
  days_from_civil 2001 1 1 = 11323 /\ days_from_civil 2024 12 31 = 20088 /\
  civil_from_days 19782 = (2024, 2, 29) /\ civil_from_days (-1) = (1969, 12, 31).
Proof. repeat split. Qed.

(** Both conversions are periodic: 400 years are 146097 days. *)
Lemma days_from_civil_shift y m d k :
  days_from_civil (y + 400 * k) m d = days_from_civil y m d + 146097 * k.
Proof.
  unfold days_from_civil. cbv zeta.
  set (y0 := if m <=? 2 then y - 1 else y).
  replace (if m <=? 2 then y + 400 * k - 1 else y + 400 * k)
    with (y0 + k * 400) by (subst y0; destruct (m <=? 2); lia).
  rewrite Z.div_add by lia.
  replace (y0 + k * 400 - (y0 / 400 + k) * 400) with (y0 - y0 / 400 * 400) by lia.
  lia.
Qed.

Lemma civil_from_days_shift z k :
  civil_from_days (z + 146097 * k) =
  let '(y, m, d) := civil_from_days z in (y + 400 * k, m, d).
Proof.
  unfold civil_from_days.
  replace (z + 146097 * k + 719468) with (z + 719468 + k * 146097) by lia.
  rewrite Z.div_add by lia.
  set (era := (z + 719468) / 146097).
  replace (z + 719468 + k * 146097 - (era + k) * 146097)
    with (z + 719468 - era * 146097) by lia.
  set (doe := z + 719468 - era * 146097).
  cbv zeta.
  set (yoe := (doe - doe / 1460 + doe / 36524 - doe / 146096) / 365).
  set (doy := doe - (365 * yoe + yoe / 4 - yoe / 100)).
  set (mp := (5 * doy + 2) / 153).
  destruct ((if mp <? 10 then mp + 3 else mp - 9) <=? 2); f_equal; f_equal; lia.
Qed.

(** One full 400-year cycle is checked by evaluation; periodicity extends
    the result to every day and every year. *)
Lemma cycle_days_checked : all_from day_in_own_year (Z.to_nat 146097) 0 = true.
Proof. vm_cast_no_check (eq_refl true). Qed.

Lemma cycle_years_checked : all_from year_roundtrip (Z.to_nat 400) 0 = true.
Proof. vm_cast_no_check (eq_refl true). Qed.

Lemma year_of_days_shift z k :
  year_of_days (z + 146097 * k) = year_of_days z + 400 * k.
Proof.
  unfold year_of_days. rewrite civil_from_days_shift.
  destruct (civil_from_days z) as [[y m] d]. reflexivity.
Qed.

Lemma year_start_shift y k : year_start (y + 400 * k) = year_start y + 146097 * k.
Proof. apply days_from_civil_shift. Qed.

Lemma year_of_days_bounds z :
  year_start (year_of_days z) <= z < year_start (year_of_days z + 1).
Proof.
  pose proof (Z.mod_pos_bound z 146097 ltac:(lia)) as Hr.
  pose proof (Z.div_mod z 146097 ltac:(lia)) as Hz.
  set (k := z / 146097) in *. set (r := z mod 146097) in *.
  assert (Hc : day_in_own_year r = true).
  { apply (all_from_spec _ _ _ cycle_days_checked). lia. }
  unfold day_in_own_year in Hc. cbv zeta in Hc.
  apply andb_prop in Hc as [H1 H2].
  apply Z.leb_le in H1. apply Z.ltb_lt in H2.
  replace z with (r + 146097 * k) by lia.
  rewrite year_of_days_shift.
  replace (year_of_days r + 400 * k + 1) with (year_of_days r + 1 + 400 * k) by lia.
  rewrite !year_start_shift. lia.
Qed.

Lemma year_roundtrip_all y : year_roundtrip y = true.
Proof.
  pose proof (Z.mod_pos_bound y 400 ltac:(lia)) as Hr.
  pose proof (Z.div_mod y 400 ltac:(lia)) as Hy.
  set (k := y / 400) in *. set (r := y mod 400) in *.
  assert (Hc : year_roundtrip r = true).
  { apply (all_from_spec _ _ _ cycle_years_checked). lia. }
  unfold year_roundtrip in *.
  replace y with (r + 400 * k) by lia.
  replace (r + 400 * k + 1) with (r + 1 + 400 * k) by lia.
  rewrite !year_start_shift, civil_from_days_shift.
  destruct (civil_from_days (year_start r)) as [[y' m] d].
  apply andb_prop in Hc as [Hc Hlt].
  apply andb_prop in Hc as [Hc Hd]. apply andb_prop in Hc as [Hy' Hm].
  apply Z.eqb_eq in Hy'. apply Z.ltb_lt in Hlt.
  rewrite Hm, Hd, !andb_true_r.
  apply andb_true_intro; split; [apply Z.eqb_eq|apply Z.ltb_lt]; lia.
Qed.

Lemma civil_of_year_start y : civil_from_days (year_start y) = (y, 1, 1).
Proof.
  pose proof (year_roundtrip_all y) as H. unfold year_roundtrip in H.
  destruct (civil_from_days (year_start y)) as [[y' m] d].
  apply andb_prop in H as [H _].
  apply andb_prop in H as [H Hd]. apply andb_prop in H as [Hy Hm].
  apply Z.eqb_eq in Hy, Hm, Hd. congruence.
Qed.

Lemma year_start_lt_succ y : year_start y < year_start (y + 1).
Proof.
  pose proof (year_roundtrip_all y) as H. unfold year_roundtrip in H.
  destruct (civil_from_days (year_start y)) as [[y' m] d].
  apply andb_prop in H as [_ H]. now apply Z.ltb_lt.
Qed.

Lemma year_start_mono y1 y2 : y1 <= y2 -> year_start y1 <= year_start y2.
Proof.
  intros H. replace y2 with (y1 + Z.of_nat (Z.to_nat (y2 - y1))) by lia.
  induction (Z.to_nat (y2 - y1)) as [|n IH]; [rewrite Z.add_0_r; lia|].
  pose proof (year_start_lt_succ (y1 + Z.of_nat n)).
  replace (y1 + Z.of_nat (S n)) with (y1 + Z.of_nat n + 1) by lia. lia.
Qed.

(** A day belongs to year [y] exactly when it lies between the first day
    of [y] and the first day of [y + 1]. *)
Lemma year_of_days_iff z y :
  year_of_days z = y <-> year_start y <= z < year_start (y + 1).
Proof.
  pose proof (year_of_days_bounds z) as Hb. split.
  - intros <-. exact Hb.
  - intros Hy. set (y' := year_of_days z) in *.
    destruct (Z.lt_trichotomy y' y) as [Hlt|[Heq|Hgt]]; [|exact Heq|].
    + pose proof (year_start_mono (y' + 1) y ltac:(lia)). lia.
    + pose proof (year_start_mono (y + 1) y' ltac:(lia)). lia.
Qed.

End CalendarFacts.

(** ** Dates and year selection *)
Module DateFacts.
Import Calendar CalendarFacts EE.

Example dates_of_the_script :
  Date_fromYMD 2001 1 1 = 978307200000 /\
  Date_fromYMD 2024 12 31 = 1735603200000 /\
  Date_year 1735603200000 = 2024 /\
  Date_advance_year 1 (Date_fromYMD 2024 2 29) = Date_fromYMD 2025 2 28.
Proof. repeat split. Qed.

Lemma fromYMD_jan1 y : Date_fromYMD y 1 1 = year_start y * msPerDay.
Proof. reflexivity. Qed.

(** One year after the first instant of [y] is the first instant of
    [y + 1]. *)
Lemma advance_year_jan1 y :
  Date_advance_year 1 (Date_fromYMD y 1 1) = Date_fromYMD (y + 1) 1 1.
Proof.
  unfold Date_advance_year. rewrite fromYMD_jan1.
  rewrite Z.div_mul by (unfold msPerDay; lia).
  rewrite Z.mod_mul by (unfold msPerDay; lia).
  rewrite civil_of_year_start.
  change (days_in_month (y + 1) 1) with 31.
  change (Z.min 1 31) with 1. unfold Date_fromYMD. lia.
Qed.

(** An instant belongs to year [y] exactly when it lies in the half-open
    interval from the first instant of [y] to the first instant of
    [y + 1]. *)
Lemma Date_year_iff t y :
  Date_year t = y <-> Date_fromYMD y 1 1 <= t < Date_fromYMD (y + 1) 1 1.
Proof.
  unfold Date_year. rewrite year_of_days_iff, !fromYMD_jan1.
  unfold msPerDay.
  generalize (year_start y) (year_start (y + 1)). intros a b.
  pose proof (Z.div_mod t 86400000 ltac:(lia)).
  pose proof (Z.mod_pos_bound t 86400000 ltac:(lia)).
  lia.
Qed.

Lemma calendarRange_year_true y img :
  Filter_calendarRange_year y y img = true <-> Date_year (time_start img) = y.
Proof.
  unfold Filter_calendarRange_year. cbv zeta. rewrite Z.ltb_irrefl. lia.
Qed.

Lemma year_filters_agree y img :
  Filter_calendarRange_year y y img =
  (Date_fromYMD y 1 1 <=? time_start img) &&
  (time_start img <? Date_advance_year 1 (Date_fromYMD y 1 1)).
Proof.
  rewrite advance_year_jan1.
  apply eq_true_iff_eq.
  rewrite calendarRange_year_true, Date_year_iff, andb_true_iff. lia.
Qed.

Lemma filterDate_In start end_ c img :
  In img (filterDate start end_ c) <->
  In img c /\ start <= time_start img < end_.
Proof.
  unfold filterDate. rewrite filter_In, andb_true_iff, Z.leb_le, Z.ltb_lt.
  tauto.
Qed.

Lemma first_In c img : first c = Some img -> In img c.
Proof. destruct c as [|x c]; simpl; [discriminate|]. intros [= ->]. now left. Qed.

Lemma first_None c : first c = None <-> c = [].
Proof. destruct c; simpl; split; congruence. Qed.

End DateFacts.

(** ** Running the script over several years *)
Module BatchFacts.
Import EE Script.

Lemma print_console l v st : console (print l v st) = console st ++ [(l, v)].
Proof. reflexivity. Qed.

Lemma print_tasks l v st : tasks (print l v st) = tasks st.
Proof. reflexivity. Qed.

(** What one call of [analyzeLandCover] adds to the console does not
    depend on the state it starts from. *)
Lemma analyzeLandCover_console catalog y st :
  console (analyzeLandCover catalog y st) =
  console st ++ console (analyzeLandCover catalog y initial).
Proof.
  unfold analyzeLandCover. cbv zeta.
  rewrite !print_console. simpl console. rewrite <- !app_assoc. reflexivity.
Qed.

Lemma analyzeLandCover_tasks catalog y st :
  tasks (analyzeLandCover catalog y st) = tasks st.
Proof. reflexivity. Qed.

Lemma forEach_cons {A} (f : A -> State -> State) x l st :
  forEach f (x :: l) st = forEach f l (f x st).
Proof. reflexivity. Qed.

Lemma forEach_analyze_console catalog years : forall st,
  console (forEach (analyzeLandCover catalog) years st) =
  console st ++
  concat (map (fun y => console (analyzeLandCover catalog y initial)) years).
Proof.
  induction years as [|y years IH]; intros st.
  - simpl. now rewrite app_nil_r.
  - rewrite forEach_cons, IH, analyzeLandCover_console.
    simpl. now rewrite <- app_assoc.
Qed.

Lemma forEach_analyze_tasks catalog years : forall st,
  tasks (forEach (analyzeLandCover catalog) years st) = tasks st.
Proof.
  induction years as [|y years IH]; intros st; [reflexivity|].
  rewrite forEach_cons, IH. reflexivity.
Qed.

(** The one task a call of [exportYear] files. *)
Lemma exportYear_task catalog y st :
  exists t, tasks (exportYear catalog y st) = tasks st ++ [t] /\
    image t = exportImage catalog y /\
    description t = "MCD12Q1_Maranhao_" +:+ pretty y /\
    fileNamePrefix t = "MCD12Q1_Maranhao_" +:+ pretty y.
Proof. eexists. repeat split. Qed.

Lemma forEach_export_tasks {B} (proj : ExportTask -> B) (name : Z -> B)
    catalog years :
  (forall y st t, tasks (exportYear catalog y st) = tasks st ++ [t] ->
                  proj t = name y) ->
  forall st,
  map proj (tasks (forEach (exportYear catalog) years st)) =
  map proj (tasks st) ++ map name years.
Proof.
  intros Hproj. induction years as [|y years IH]; intros st.
  - simpl. now rewrite app_nil_r.
  - rewrite forEach_cons, IH.
    destruct (exportYear_task catalog y st) as (t & Ht & _).
    rewrite Ht, map_app, <- app_assoc. simpl map.
    now rewrite (Hproj y st t Ht).
Qed.

Lemma forEach_export_console catalog years : forall st,
  console (forEach (exportYear catalog) years st) = console st.
Proof.
  induction years as [|y years IH]; intros st; [reflexivity|].
  rewrite forEach_cons, IH. reflexivity.
Qed.

(** Before the export loop starts the script has filed no task. *)
Lemma script_tasks catalog :
  map description (tasks (script catalog)) =
  map (fun y => "MCD12Q1_Maranhao_" +:+ pretty y) (List_sequence 2001 2024).
Proof.
  unfold script. cbv zeta.
  rewrite (forEach_export_tasks description
             (fun y => "MCD12Q1_Maranhao_" +:+ pretty y)).
  - rewrite !print_tasks, forEach_analyze_tasks. reflexivity.
  - intros y st t Ht.
    destruct (exportYear_task catalog y st) as (t' & Ht' & _ & Hd & _).
    rewrite Ht' in Ht. apply app_inv_head in Ht. now injection Ht as <-.
Qed.

End BatchFacts.

(** ** Masks and region sums *)
Module RasterFacts.
Import EE Script Spec Cells.

Ltac code_cases c :=
  repeat match goal with
         | |- context [Z.leb ?a ?b] => destruct (Z.leb_spec a b)
         | |- context [Z.eqb ?a ?b] => destruct (Z.eqb_spec a b)
         end; simpl; try reflexivity; try lia.

Lemma forest_code_spec c : forest_code c = Z_of_bool (in_group Forest c).
Proof.
  unfold forest_code, and_px, gte_px, lte_px, in_group, Forest, Z_of_bool.
  simpl existsb. code_cases c.
Qed.

Lemma savanna_code_spec c : savanna_code c = Z_of_bool (in_group Savanna c).
Proof.
  unfold savanna_code, and_px, gte_px, lte_px, in_group, Savanna, Z_of_bool.
  simpl existsb. code_cases c.
Qed.

Lemma cropland_code_spec c :
  cropland_code c = Z_of_bool (in_group Agriculture c).
Proof.
  unfold cropland_code, or_px, eq_px, in_group, Agriculture, Z_of_bool.
  simpl existsb. code_cases c.
Qed.

Lemma in_group_Forest c : in_group Forest c = true <-> 1 <= c <= 5.
Proof. unfold in_group, Forest. simpl existsb. code_cases c; split; (lia || discriminate). Qed.

Lemma in_group_Savanna c : in_group Savanna c = true <-> 6 <= c <= 9.
Proof. unfold in_group, Savanna. simpl existsb. code_cases c; split; (lia || discriminate). Qed.

Lemma in_group_Agriculture c :
  in_group Agriculture c = true <-> c = 12 \/ c = 14.
Proof. unfold in_group, Agriculture. simpl existsb. code_cases c; split; (lia || discriminate). Qed.

(** No code lies in two groups. *)
Lemma groups_disjoint c :
  Z_of_bool (in_group Forest c) + Z_of_bool (in_group Savanna c)
  + Z_of_bool (in_group Agriculture c) <= 1.
Proof.
  pose proof (in_group_Forest c). pose proof (in_group_Savanna c).
  pose proof (in_group_Agriculture c).
  destruct (in_group Forest c), (in_group Savanna c),
    (in_group Agriculture c); simpl; lia.
Qed.

Lemma zip_with_map_same {A B C D} (h : B -> C -> D) (f : A -> B) (g : A -> C)
    (l : list A) :
  zip_with h (map f l) (map g l) = map (fun x => h (f x) (g x)) l.
Proof. induction l as [|x l IH]; simpl; congruence. Qed.

(** Cells of a two-sided test on an image. *)
Lemma grid_zip_map (op : Z -> Z -> Z) (f1 f2 : Z -> Z) img s :
  grid (zip_image op (map_image f1 img) (map_image f2 img)) s =
  map (map_cell (fun c => op (f1 c) (f2 c))) (grid img s).
Proof.
  simpl. rewrite zip_with_map_same.
  apply map_ext. intros p. unfold zip_cell, map_cell. simpl.
  destruct (value p); reflexivity.
Qed.

(** The same on a clipped frame. *)
Lemma grid_zip_clip (op : Z -> Z -> Z) (f1 f2 : Z -> Z) g frame s :
  grid (zip_image op (map_image f1 (clip_image g frame))
                     (map_image f2 (clip_image g frame))) s =
  map (masked_cell g (fun c => op (f1 c) (f2 c))) (grid frame s).
Proof. rewrite grid_zip_map. simpl. now rewrite map_map. Qed.

Lemma inside_masked_cell g g' m p : inside g' (masked_cell g m p) = inside g' p.
Proof. reflexivity. Qed.

Lemma region_pixels_masked g m ps :
  List.filter (inside g) (map (masked_cell g m) ps) =
  map (masked_cell g m) (List.filter (inside g) ps).
Proof.
  induction ps as [|p ps IH]; [reflexivity|]. simpl.
  rewrite inside_masked_cell. destruct (inside g p); simpl; congruence.
Qed.

Lemma unmasked_cons p ps :
  unmasked (p :: ps) =
  match value p with
  | Some v => v :: unmasked ps
  | None => unmasked ps
  end.
Proof. reflexivity. Qed.

(** Summing a 0/1 test over the region counts the matching cells. *)
Lemma sum_masked_cells g m codes ps :
  (forall c, m c = Z_of_bool (in_group codes c)) ->
  sum_values (unmasked (List.filter (inside g) (map (masked_cell g m) ps))) =
  Z.of_nat (length (List.filter (matches codes g) ps)).
Proof.
  intros Hm. induction ps as [|p ps IH]; [reflexivity|].
  simpl map. simpl List.filter. rewrite inside_masked_cell.
  unfold matches at 1.
  destruct (inside g p) eqn:Hin; simpl andb; [|exact IH].
  rewrite unmasked_cons.
  unfold masked_cell at 1, map_cell, clip_cell. simpl value. rewrite Hin.
  destruct (value p) as [c|]; simpl fmap; cbv iota beta; [|exact IH].
  change (sum_values (?x :: ?l)) with (x + sum_values l).
  rewrite IH, Hm. destruct (in_group codes c); simpl length; unfold Z_of_bool; lia.
Qed.

(** The region sum of a test on a clipped frame, ceiling included. *)
Lemma reduce_sum_mask g s mp m codes frame img :
  (forall c, m c = Z_of_bool (in_group codes c)) ->
  grid img s = map (masked_cell g m) (grid frame s) ->
  reduceRegion Reducer_sum (Val img) g s mp =
  if mp <? roi_pixel_count g s frame then Err TooManyPixels
  else Val (inject_Z (matched_pixel_count codes g s frame)).
Proof.
  intros Hm Hgrid. unfold reduceRegion, roi_pixel_count, region_pixels. simpl.
  rewrite Hgrid, region_pixels_masked, length_map.
  destruct (mp <? _); [reflexivity|].
  unfold Reducer_sum, matched_pixel_count.
  now rewrite <- region_pixels_masked, (sum_masked_cells g m codes).
Qed.

Lemma forestPixelCount_frame frame :
  forestPixelCount (clip (Some frame) maranhao) =
  if 10 ^ 13 <? roi_pixel_count maranhao 500 frame then Err TooManyPixels
  else Val (inject_Z (matched_pixel_count Forest maranhao 500 frame)).
Proof.
  unfold forestPixelCount. simpl forest.
  apply (reduce_sum_mask _ _ _ forest_code); [apply forest_code_spec|].
  apply grid_zip_clip.
Qed.

End RasterFacts.

(** ** Areas, counts and regions *)
Module AreaFacts.
Import EE Script Spec Cells RasterFacts.

Lemma savannaCount_frame frame :
  reduceRegion Reducer_sum (savanna (clip (Some frame) maranhao))
    maranhao 500 (10 ^ 13) =
  if 10 ^ 13 <? roi_pixel_count maranhao 500 frame then Err TooManyPixels
  else Val (inject_Z (matched_pixel_count Savanna maranhao 500 frame)).
Proof.
  simpl savanna.
  apply (reduce_sum_mask _ _ _ savanna_code); [apply savanna_code_spec|].
  apply grid_zip_clip.
Qed.

Lemma cropCount_frame frame :
  reduceRegion Reducer_sum (cropland (clip (Some frame) maranhao))
    maranhao 500 (10 ^ 13) =
  if 10 ^ 13 <? roi_pixel_count maranhao 500 frame then Err TooManyPixels
  else Val (inject_Z (matched_pixel_count Agriculture maranhao 500 frame)).
Proof.
  simpl cropland.
  apply (reduce_sum_mask _ _ _ cropland_code); [apply cropland_code_spec|].
  apply grid_zip_clip.
Qed.

Lemma pixel_area_500 : (pixel_area_km2 500 == 0.25)%Q.
Proof. reflexivity. Qed.

Lemma area_of_pixels_quarter n :
  area_of_pixels 500 (multiply (Val (inject_Z n)) 0.25) n.
Proof.
  exists (inject_Z n * 0.25)%Q. split; [reflexivity|].
  now rewrite pixel_area_500.
Qed.

(** Within the ceiling the three areas are the three counts, each cell
    worth a quarter of a square kilometre. *)
Lemma areas_of_frame frame :
  roi_pixel_count maranhao 500 frame <= 10 ^ 13 ->
  forestAreaKm2 (clip (Some frame) maranhao) =
    Val (inject_Z (matched_pixel_count Forest maranhao 500 frame) * 0.25)%Q /\
  savannaAreaKm2 (clip (Some frame) maranhao) =
    Val (inject_Z (matched_pixel_count Savanna maranhao 500 frame) * 0.25)%Q /\
  cropAreaKm2 (clip (Some frame) maranhao) =
    Val (inject_Z (matched_pixel_count Agriculture maranhao 500 frame) * 0.25)%Q.
Proof.
  intros Hmax. apply Z.ltb_ge in Hmax.
  unfold forestAreaKm2, savannaAreaKm2, cropAreaKm2.
  rewrite forestPixelCount_frame, savannaCount_frame, cropCount_frame, Hmax.
  repeat split.
Qed.

Lemma matched_count_nonneg codes g s frame :
  0 <= matched_pixel_count codes g s frame.
Proof. unfold matched_pixel_count. lia. Qed.

Lemma filter_cons_count {A} (f : A -> bool) x l :
  Z.of_nat (length (List.filter f (x :: l))) =
  Z_of_bool (f x) + Z.of_nat (length (List.filter f l)).
Proof. simpl. destruct (f x); simpl length; unfold Z_of_bool; lia. Qed.

(** A cell is counted for at most one group, and only inside the region. *)
Lemma matches_at_most_one g p :
  Z_of_bool (matches Forest g p) + Z_of_bool (matches Savanna g p)
  + Z_of_bool (matches Agriculture g p) <= Z_of_bool (inside g p).
Proof.
  unfold matches. destruct (inside g p); simpl andb; [|simpl; lia].
  destruct (value p) as [c|]; [|simpl; lia].
  exact (groups_disjoint c).
Qed.

Lemma matched_counts_le_roi g ps :
  Z.of_nat (length (List.filter (matches Forest g) ps))
  + Z.of_nat (length (List.filter (matches Savanna g) ps))
  + Z.of_nat (length (List.filter (matches Agriculture g) ps))
  <= Z.of_nat (length (List.filter (inside g) ps)).
Proof.
  induction ps as [|p ps IH]; [simpl; lia|].
  rewrite !filter_cons_count.
  pose proof (matches_at_most_one g p). lia.
Qed.

Lemma in_group_app g1 g2 c :
  in_group (g1 ++ g2) c = in_group g1 c || in_group g2 c.
Proof. unfold in_group. apply existsb_app. Qed.

(** A cell outside a group leaves the group's count as it was. *)
Lemma matched_count_add_pixel codes g s p c frame :
  value p = Some c -> in_group codes c = false ->
  matched_pixel_count codes g s (add_pixel p frame) =
  matched_pixel_count codes g s frame.
Proof.
  intros Hv Hc. unfold matched_pixel_count. simpl grid.
  rewrite filter_cons_count. unfold matches at 1.
  rewrite Hv, Hc, andb_false_r. reflexivity.
Qed.

Lemma roi_count_add_pixel g s p frame :
  roi_pixel_count g s frame <= roi_pixel_count g s (add_pixel p frame).
Proof.
  unfold roi_pixel_count, region_pixels. simpl grid.
  rewrite filter_cons_count. destruct (inside g p); simpl; lia.
Qed.

Lemma mask_at_zip_map op f1 f2 img s i p c :
  grid img s !! i = Some p -> value p = Some c ->
  mask_at (Val (zip_image op (map_image f1 img) (map_image f2 img))) s i =
  Some (op (f1 c) (f2 c)).
Proof.
  intros Hi Hv. unfold mask_at. rewrite grid_zip_map.
  change (map ?f ?l) with (f <$> l).
  rewrite list_lookup_fmap, Hi. simpl. now rewrite Hv.
Qed.

End AreaFacts.

(** ** Properties of the script *)
Section Properties.
Import Calendar CalendarFacts EE Script Spec Cells Samples.
Import DateFacts BatchFacts RasterFacts AreaFacts.

(** C10: the calendar-year filter of the analysis path and the date
    interval of the export path pick the same frame, for every year and
    every collection; in particular both functions of the script work on
    the same clipped frame. *)
Theorem year_selection_methods_agree (c : ImageCollection) (y : Z) :
  first (filter (Filter_calendarRange_year y y) c) =
  first (filterDate (Date_fromYMD y 1 1)
                    (Date_advance_year 1 (Date_fromYMD y 1 1)) c)
  /\ (forall catalog, analysisImage catalog y = exportImage catalog y).
Proof.
  assert (Hsame : forall c' : ImageCollection,
    filter (Filter_calendarRange_year y y) c' =
    filterDate (Date_fromYMD y 1 1)
               (Date_advance_year 1 (Date_fromYMD y 1 1)) c').
  { intros c'. unfold filter, filterDate. apply filter_ext.
    intros img. apply year_filters_agree. }
  split.
  - now rewrite Hsame.
  - intros catalog. unfold analysisImage, exportImage. cbv zeta.
    now rewrite Hsame.
Qed.

(** C9, as the code has it: the date filter keeps the half-open period
    from the start instant (included) to the end instant (excluded); for
    the script's collection these are 2001-01-01 and 2024-12-31. *)
Theorem filterDate_half_open (start end_ : Date) (c : ImageCollection)
    (img : Image) :
  (In img (filterDate start end_ c) <->
   In img c /\ start <= time_start img < end_)
  /\ (In img (mcd12 c) <->
      In img c /\
      Date_fromYMD 2001 1 1 <= time_start img < Date_fromYMD 2024 12 31).
Proof. split; apply filterDate_In. Qed.

(** C9 fails as stated: a frame acquired exactly on the end date
    2024-12-31 is dropped by the script's date filter, while the frame of
    2024-01-01 is kept. *)
Lemma end_date_frame_excluded :
  time_start frame_end_date = Date_fromYMD 2024 12 31 /\
  mcd12 [frame_end_date] = [] /\
  mcd12 [frame2024; frame_end_date] = [frame2024].
Proof. repeat split. Qed.

(** C1, as the code has it: the first frame of the year filter is a
    frame of the catalogue whose year is the requested one, or null when
    no frame matches; the null is handed on unchecked, so that the clip,
    every reduction printed by the analysis and the exported image all
    evaluate to the error "Image.clip: Parameter 'input' is required". *)
Theorem year_frame_or_late_failure (catalog : ImageCollection) (y : Z) :
  match first (filter (Filter_calendarRange_year y y) (mcd12 catalog)) with
  | Some frame =>
      In frame catalog /\ Date_year (time_start frame) = y /\
      analysisImage catalog y = Val (clip_image maranhao frame) /\
      exportImage catalog y = Val (clip_image maranhao frame)
  | None =>
      (forall frame, In frame (mcd12 catalog) ->
                     Date_year (time_start frame) <> y) /\
      analysisImage catalog y = Err (NullInput "Image.clip") /\
      histogram (analysisImage catalog y) = Err (NullInput "Image.clip") /\
      forestPixelCount (analysisImage catalog y) = Err (NullInput "Image.clip") /\
      forestAreaKm2 (analysisImage catalog y) = Err (NullInput "Image.clip") /\
      savannaAreaKm2 (analysisImage catalog y) = Err (NullInput "Image.clip") /\
      cropAreaKm2 (analysisImage catalog y) = Err (NullInput "Image.clip") /\
      exportImage catalog y = Err (NullInput "Image.clip")
  end.
Proof.
  assert (Hexp : exportImage catalog y = analysisImage catalog y).
  { unfold analysisImage, exportImage. cbv zeta. f_equal. f_equal.
    unfold filter, filterDate. apply filter_ext.
    intros img. symmetry. apply year_filters_agree. }
  rewrite Hexp. unfold analysisImage.
  destruct (first (filter (Filter_calendarRange_year y y) (mcd12 catalog)))
    as [frame|] eqn:Hfirst.
  - apply first_In in Hfirst. unfold filter in Hfirst.
    apply filter_In in Hfirst as [Hin Hy].
    apply filterDate_In in Hin as [Hin _].
    apply calendarRange_year_true in Hy. repeat split; assumption.
  - apply first_None in Hfirst. repeat split.
    intros frame Hin Hy.
    assert (Hf : In frame (filter (Filter_calendarRange_year y y) (mcd12 catalog))).
    { unfold filter. apply filter_In. split; [exact Hin|].
      now apply calendarRange_year_true. }
    rewrite Hfirst in Hf. exact Hf.
Qed.

(** C1 fails as stated: with no frame for 2002 the analysis does not
    end in an explicit missing-year outcome; every value it prints for
    that year is the deferred "Image.clip" error. *)
Lemma missing_year_fails_on_access :
  filter (Filter_calendarRange_year 2002 2002) (mcd12 catalog_gap) = [] /\
  console (analyzeLandCover catalog_gap 2002 initial) =
  [ ("Year 2002 - Land Cover Classes:",
     PHistogram (Err (NullInput "Image.clip")));
    ("Year 2002 - Forest pixels:", PNumber (Err (NullInput "Image.clip")));
    ("Year 2002 - Forest area (km²):", PNumber (Err (NullInput "Image.clip")));
    ("Year 2002 - Savanna/Shrub area (km²):",
     PNumber (Err (NullInput "Image.clip")));
    ("Year 2002 - Agriculture area (km²):",
     PNumber (Err (NullInput "Image.clip"))) ].
Proof. split; reflexivity. Qed.

(** C2, as the code has it: nothing is caught or recorded per year, and
    nothing aborts either.  Every year of the list is processed in order:
    the export loop files exactly one task per year, named after the year
    and carrying that year's (possibly failing) image, and leaves the
    console alone; the analysis loop appends each year's five lines and
    files no task.  The script as a whole files the 24 tasks of 2001 to
    2024 on any catalogue. *)
Theorem batch_processes_every_year (catalog : ImageCollection)
    (years : list Z) (st : State) :
  map description (tasks (forEach (exportYear catalog) years st)) =
    map description (tasks st)
    ++ map (fun y => "MCD12Q1_Maranhao_" +:+ pretty y) years
  /\ map image (tasks (forEach (exportYear catalog) years st)) =
     map image (tasks st) ++ map (exportImage catalog) years
  /\ console (forEach (exportYear catalog) years st) = console st
  /\ console (forEach (analyzeLandCover catalog) years st) =
     console st
     ++ concat (map (fun y => console (analyzeLandCover catalog y initial)) years)
  /\ tasks (forEach (analyzeLandCover catalog) years st) = tasks st
  /\ map description (tasks (script catalog)) =
     map (fun y => "MCD12Q1_Maranhao_" +:+ pretty y) (List_sequence 2001 2024).
Proof.
  split; [|split; [|split; [|split; [|split]]]].
  - apply forEach_export_tasks. intros y st' t Ht.
    destruct (exportYear_task catalog y st') as (t' & Ht' & _ & Hd & _).
    rewrite Ht' in Ht. apply app_inv_head in Ht. now injection Ht as <-.
  - apply forEach_export_tasks. intros y st' t Ht.
    destruct (exportYear_task catalog y st') as (t' & Ht' & Hi & _).
    rewrite Ht' in Ht. apply app_inv_head in Ht. now injection Ht as <-.
  - apply forEach_export_console.
  - apply forEach_analyze_console.
  - apply forEach_analyze_tasks.
  - apply script_tasks.
Qed.

(** C2 fails as stated: in a run over 2001-2003 on a catalogue without
    2002 the missing year is neither skipped nor recorded as failed; a
    task is filed for it like for the others, its image being the one
    that fails on evaluation, and the console stays empty. *)
Lemma missing_year_task_is_filed :
  map (fun t => (description t, is_err (image t)))
      (tasks (forEach (exportYear catalog_gap) [2001; 2002; 2003] initial)) =
  [ ("MCD12Q1_Maranhao_2001", false); ("MCD12Q1_Maranhao_2002", true);
    ("MCD12Q1_Maranhao_2003", false) ] /\
  console (forEach (exportYear catalog_gap) [2001; 2002; 2003] initial) = [].
Proof. split; reflexivity. Qed.

(** C3: for a frame whose region stays within the pixel ceiling, the
    area the script computes for each class group is the number of
    matching cells times (500/1000) squared, that is a quarter of a square
    kilometre per cell; a forest count of 6 gives 1.5 square kilometres. *)
Theorem group_area_is_count_times_pixel_area (frame : Image) :
  roi_pixel_count maranhao 500 frame <= 10 ^ 13 ->
  (pixel_area_km2 500 == 0.25)%Q /\
  area_of_pixels 500 (forestAreaKm2 (clip (Some frame) maranhao))
                 (matched_pixel_count Forest maranhao 500 frame) /\
  area_of_pixels 500 (savannaAreaKm2 (clip (Some frame) maranhao))
                 (matched_pixel_count Savanna maranhao 500 frame) /\
  area_of_pixels 500 (cropAreaKm2 (clip (Some frame) maranhao))
                 (matched_pixel_count Agriculture maranhao 500 frame) /\
  (matched_pixel_count Forest maranhao 500 frame = 6 ->
   exists a : Q, forestAreaKm2 (clip (Some frame) maranhao) = Val a /\
                 (a == 1.5)%Q).
Proof.
  intros Hmax. destruct (areas_of_frame frame Hmax) as (HF & HS & HA).
  rewrite HF, HS, HA.
  split; [exact pixel_area_500|].
  repeat split; try apply area_of_pixels_quarter.
  intros ->. eexists. split; reflexivity.
Qed.

Lemma group_area_is_count_times_pixel_area_witness :
  roi_pixel_count maranhao 500 frame2001 <= 10 ^ 13 /\
  matched_pixel_count Forest maranhao 500 frame2001 = 6 /\
  exists a : Q, forestAreaKm2 (clip (Some frame2001) maranhao) = Val a /\
                (a == 1.5)%Q.
Proof.
  assert (Hmax : roi_pixel_count maranhao 500 frame2001 <= 10 ^ 13)
    by (vm_compute; discriminate).
  split; [exact Hmax|]. split; [reflexivity|].
  apply (group_area_is_count_times_pixel_area frame2001 Hmax). reflexivity.
Defined.

(** C4: for a frame whose region stays within the pixel ceiling, the
    three group areas are non-negative and together do not exceed the
    area of the region, its number of cells times the area of a cell. *)
Theorem group_areas_within_region (frame : Image) :
  roi_pixel_count maranhao 500 frame <= 10 ^ 13 ->
  exists aF aS aA : Q,
    forestAreaKm2 (clip (Some frame) maranhao) = Val aF /\
    savannaAreaKm2 (clip (Some frame) maranhao) = Val aS /\
    cropAreaKm2 (clip (Some frame) maranhao) = Val aA /\
    (0 <= aF /\ 0 <= aS /\ 0 <= aA /\
     aF + aS + aA <=
     inject_Z (roi_pixel_count maranhao 500 frame) * pixel_area_km2 500)%Q.
Proof.
  intros Hmax. destruct (areas_of_frame frame Hmax) as (HF & HS & HA).
  do 3 eexists. split; [exact HF|]. split; [exact HS|]. split; [exact HA|].
  pose proof (matched_count_nonneg Forest maranhao 500 frame) as H1.
  pose proof (matched_count_nonneg Savanna maranhao 500 frame) as H2.
  pose proof (matched_count_nonneg Agriculture maranhao 500 frame) as H3.
  pose proof (matched_counts_le_roi maranhao (grid frame 500)) as H4.
  fold (matched_pixel_count Forest maranhao 500 frame) in H4.
  fold (matched_pixel_count Savanna maranhao 500 frame) in H4.
  fold (matched_pixel_count Agriculture maranhao 500 frame) in H4.
  fold (region_pixels maranhao 500 frame) in H4.
  fold (roi_pixel_count maranhao 500 frame) in H4.
  revert H1 H2 H3 H4.
  generalize (matched_pixel_count Forest maranhao 500 frame),
    (matched_pixel_count Savanna maranhao 500 frame),
    (matched_pixel_count Agriculture maranhao 500 frame),
    (roi_pixel_count maranhao 500 frame).
  intros nF nS nA n H1 H2 H3 H4.
  rewrite pixel_area_500.
  assert (Hq : (0 <= 0.25)%Q) by (vm_compute; discriminate).
  repeat split.
  - apply Qmult_le_0_compat; [|exact Hq]. now rewrite <- (Zle_Qle 0).
  - apply Qmult_le_0_compat; [|exact Hq]. now rewrite <- (Zle_Qle 0).
  - apply Qmult_le_0_compat; [|exact Hq]. now rewrite <- (Zle_Qle 0).
  - rewrite <- !Qmult_plus_distr_l. apply Qmult_le_compat_r; [|exact Hq].
    rewrite <- !inject_Z_plus, <- Zle_Qle. exact H4.
Qed.

Lemma group_areas_within_region_witness :
  roi_pixel_count maranhao 500 frame2001 <= 10 ^ 13 /\
  exists aF aS aA : Q,
    forestAreaKm2 (clip (Some frame2001) maranhao) = Val aF /\
    savannaAreaKm2 (clip (Some frame2001) maranhao) = Val aS /\
    cropAreaKm2 (clip (Some frame2001) maranhao) = Val aA /\
    (0 <= aF /\ 0 <= aS /\ 0 <= aA /\
     aF + aS + aA <=
     inject_Z (roi_pixel_count maranhao 500 frame2001) * pixel_area_km2 500)%Q.
Proof.
  assert (Hmax : roi_pixel_count maranhao 500 frame2001 <= 10 ^ 13)
    by (vm_compute; discriminate).
  split; [exact Hmax|].
  exact (group_areas_within_region frame2001 Hmax).
Defined.

(** C5: on every cell of every image the three class tests of the
    script give 0 or 1; the forest test is 1 exactly for codes 1 to 5, the
    savanna test for 6 to 9, the agriculture test for 12 and 14, and at
    most one of the three is 1. *)
Theorem class_masks_disjoint (img : Image) (s : Z) (i : nat) (p : Pixel)
    (c : Z) :
  grid img s !! i = Some p -> value p = Some c ->
  exists bF bS bA : bool,
    mask_at (forest (Val img)) s i = Some (Z_of_bool bF) /\
    mask_at (savanna (Val img)) s i = Some (Z_of_bool bS) /\
    mask_at (cropland (Val img)) s i = Some (Z_of_bool bA) /\
    (bF = true <-> 1 <= c <= 5) /\
    (bS = true <-> 6 <= c <= 9) /\
    (bA = true <-> c = 12 \/ c = 14) /\
    Z_of_bool bF + Z_of_bool bS + Z_of_bool bA <= 1.
Proof.
  intros Hi Hv.
  exists (in_group Forest c), (in_group Savanna c), (in_group Agriculture c).
  rewrite <- forest_code_spec, <- savanna_code_spec, <- cropland_code_spec.
  split; [exact (mask_at_zip_map _ _ _ _ _ _ _ _ Hi Hv)|].
  split; [exact (mask_at_zip_map _ _ _ _ _ _ _ _ Hi Hv)|].
  split; [exact (mask_at_zip_map _ _ _ _ _ _ _ _ Hi Hv)|].
  split; [apply in_group_Forest|].
  split; [apply in_group_Savanna|].
  split; [apply in_group_Agriculture|].
  rewrite forest_code_spec, savanna_code_spec, cropland_code_spec.
  apply groups_disjoint.
Qed.

Lemma class_masks_disjoint_witness :
  grid frame2001 500 !! 10%nat = Some (cell 2 2 (Some 12)) /\
  exists bF bS bA : bool,
    mask_at (forest (Val frame2001)) 500 10 = Some (Z_of_bool bF) /\
    mask_at (savanna (Val frame2001)) 500 10 = Some (Z_of_bool bS) /\
    mask_at (cropland (Val frame2001)) 500 10 = Some (Z_of_bool bA) /\
    (bF = true <-> 1 <= 12 <= 5) /\
    (bS = true <-> 6 <= 12 <= 9) /\
    (bA = true <-> 12 = 12 \/ 12 = 14) /\
    Z_of_bool bF + Z_of_bool bS + Z_of_bool bA <= 1.
Proof.
  split; [reflexivity|].
  apply (class_masks_disjoint frame2001 500 10 (cell 2 2 (Some 12)) 12);
    reflexivity.
Defined.

(** C6: a cell whose code belongs to none of the three groups adds
    nothing to any of the sums: the frame with that cell added has the
    same forest count and the same three areas.  The codes 10, 11, 13, 15,
    16 and 17 are such codes. *)
Theorem ungrouped_pixel_adds_nothing (frame : Image) (p : Pixel) (c : Z) :
  value p = Some c ->
  in_group (Forest ++ Savanna ++ Agriculture) c = false ->
  roi_pixel_count maranhao 500 (add_pixel p frame) <= 10 ^ 13 ->
  forestPixelCount (clip (Some (add_pixel p frame)) maranhao) =
    forestPixelCount (clip (Some frame) maranhao) /\
  forestAreaKm2 (clip (Some (add_pixel p frame)) maranhao) =
    forestAreaKm2 (clip (Some frame) maranhao) /\
  savannaAreaKm2 (clip (Some (add_pixel p frame)) maranhao) =
    savannaAreaKm2 (clip (Some frame) maranhao) /\
  cropAreaKm2 (clip (Some (add_pixel p frame)) maranhao) =
    cropAreaKm2 (clip (Some frame) maranhao) /\
  Forall (fun c' => in_group (Forest ++ Savanna ++ Agriculture) c' = false)
         [10; 11; 13; 15; 16; 17].
Proof.
  intros Hv Hc Hmax'.
  rewrite !in_group_app, !orb_false_iff in Hc. destruct Hc as (HF & HS & HA).
  pose proof (roi_count_add_pixel maranhao 500 p frame) as Hle.
  assert (Hmax : roi_pixel_count maranhao 500 frame <= 10 ^ 13) by lia.
  destruct (areas_of_frame _ Hmax') as (HF' & HS' & HA').
  destruct (areas_of_frame _ Hmax) as (HF0 & HS0 & HA0).
  rewrite HF', HS', HA', HF0, HS0, HA0, !forestPixelCount_frame.
  apply Z.ltb_ge in Hmax, Hmax'. rewrite Hmax, Hmax'.
  rewrite (matched_count_add_pixel Forest _ _ p c frame Hv HF).
  rewrite (matched_count_add_pixel Savanna _ _ p c frame Hv HS).
  rewrite (matched_count_add_pixel Agriculture _ _ p c frame Hv HA).
  repeat split. repeat constructor.
Qed.

Lemma ungrouped_pixel_adds_nothing_witness :
  value (cell 1 1 (Some 10)) = Some 10 /\
  in_group (Forest ++ Savanna ++ Agriculture) 10 = false /\
  roi_pixel_count maranhao 500 (add_pixel (cell 1 1 (Some 10)) frame2001)
    <= 10 ^ 13 /\
  forestAreaKm2 (clip (Some (add_pixel (cell 1 1 (Some 10)) frame2001)) maranhao) =
    forestAreaKm2 (clip (Some frame2001) maranhao) /\
  savannaAreaKm2 (clip (Some (add_pixel (cell 1 1 (Some 10)) frame2001)) maranhao) =
    savannaAreaKm2 (clip (Some frame2001) maranhao) /\
  cropAreaKm2 (clip (Some (add_pixel (cell 1 1 (Some 10)) frame2001)) maranhao) =
    cropAreaKm2 (clip (Some frame2001) maranhao).
Proof.
  assert (Hmax : roi_pixel_count maranhao 500
                   (add_pixel (cell 1 1 (Some 10)) frame2001) <= 10 ^ 13)
    by (vm_compute; discriminate).
  destruct (ungrouped_pixel_adds_nothing frame2001 (cell 1 1 (Some 10)) 10
              eq_refl eq_refl Hmax) as (_ & HF & HS & HA & _).
  exact (conj eq_refl (conj eq_refl (conj Hmax (conj HF (conj HS HA))))).
Defined.

(** C8: the task a call of [exportYear] files has the description and
    the file name prefix 'MCD12Q1_Maranhao_' followed by the year,
    whatever the catalogue and the state; two such names are equal only
    for equal years. *)
Theorem export_name_from_year (catalog1 catalog2 : ImageCollection)
    (st1 st2 : State) (y1 y2 : Z) :
  exists t1 t2 : ExportTask,
    tasks (exportYear catalog1 y1 st1) = tasks st1 ++ [t1] /\
    tasks (exportYear catalog2 y2 st2) = tasks st2 ++ [t2] /\
    description t1 = "MCD12Q1_Maranhao_" +:+ pretty y1 /\
    fileNamePrefix t1 = "MCD12Q1_Maranhao_" +:+ pretty y1 /\
    (description t1 = description t2 <-> y1 = y2) /\
    (fileNamePrefix t1 = fileNamePrefix t2 <-> y1 = y2).
Proof.
  destruct (exportYear_task catalog1 y1 st1) as (t1 & Ht1 & _ & Hd1 & Hp1).
  destruct (exportYear_task catalog2 y2 st2) as (t2 & Ht2 & _ & Hd2 & Hp2).
  exists t1, t2. rewrite Hd1, Hd2, Hp1, Hp2.
  assert (Hinj : "MCD12Q1_Maranhao_" +:+ pretty y1 =
                 "MCD12Q1_Maranhao_" +:+ pretty y2 <-> y1 = y2).
  { split; [|now intros ->].
    intros H. apply (inj (String.append "MCD12Q1_Maranhao_")) in H.
    now apply (inj pretty) in H. }
  repeat split; try assumption; apply Hinj.
Qed.

Lemma export_name_from_year_witness :
  exists t1 t2 : ExportTask,
    tasks (exportYear catalog_gap 2001 initial) = [t1] /\
    tasks (exportYear [] 2002 initial) = [t2] /\
    description t1 = "MCD12Q1_Maranhao_2001" /\
    description t1 <> description t2.
Proof.
  destruct (export_name_from_year catalog_gap [] initial initial 2001 2002)
    as (t1 & t2 & H1 & H2 & Hd & _ & Hne & _).
  exists t1, t2. repeat split; try assumption.
  intros Heq. apply Hne in Heq. discriminate Heq.
Defined.

End Properties.

(** ** The date window of the collection and the years *)
Module WindowFacts.
Import Calendar CalendarFacts EE Script Stats DateFacts.

Lemma is_leap_shift y k : is_leap (y + 400 * k) = is_leap y.
Proof.
  unfold is_leap.
  replace ((y + 400 * k) mod 4) with (y mod 4)
    by (replace (y + 400 * k) with (y + (100 * k) * 4) by lia;
        now rewrite Z.mod_add by lia).
  replace ((y + 400 * k) mod 100) with (y mod 100)
    by (replace (y + 400 * k) with (y + (4 * k) * 100) by lia;
        now rewrite Z.mod_add by lia).
  replace ((y + 400 * k) mod 400) with (y mod 400)
    by (replace (y + 400 * k) with (y + k * 400) by lia;
        now rewrite Z.mod_add by lia).
  reflexivity.
Qed.

Lemma cycle_lengths_checked : all_from year_length_ok (Z.to_nat 400) 0 = true.
Proof. vm_cast_no_check (eq_refl true). Qed.

(** A year has 366 days when it is a leap year and 365 otherwise. *)
Lemma year_length y :
  year_start (y + 1) - year_start y = if is_leap y then 366 else 365.
Proof.
  pose proof (Z.mod_pos_bound y 400 ltac:(lia)) as Hr.
  pose proof (Z.div_mod y 400 ltac:(lia)) as Hy.
  set (k := y / 400) in *. set (r := y mod 400) in *.
  assert (Hc : year_length_ok r = true).
  { apply (all_from_spec _ _ _ cycle_lengths_checked). lia. }
  unfold year_length_ok in Hc. apply Z.eqb_eq in Hc.
  replace y with (r + 400 * k) by lia.
  replace (r + 400 * k + 1) with (r + 1 + 400 * k) by lia.
  rewrite !year_start_shift, is_leap_shift. lia.
Qed.

Lemma fromYMD_jan1_mono y1 y2 :
  y1 <= y2 -> Date_fromYMD y1 1 1 <= Date_fromYMD y2 1 1.
Proof.
  intros H. rewrite !fromYMD_jan1. pose proof (year_start_mono y1 y2 H).
  unfold msPerDay. lia.
Qed.

(** Every frame of the script's collection is a frame of 2001 to 2024. *)
Lemma mcd12_year_range catalog frame :
  In frame (mcd12 catalog) -> 2001 <= Date_year (time_start frame) <= 2024.
Proof.
  intros Hin. apply filterDate_In in Hin as [_ [Hlo Hhi]].
  pose proof (proj1 (Date_year_iff (time_start frame) _) eq_refl) as [Hs He].
  set (y := Date_year (time_start frame)) in *.
  assert (Hend : Date_fromYMD 2024 12 31 < Date_fromYMD 2025 1 1) by reflexivity.
  split.
  - destruct (Z_lt_le_dec y 2001) as [Hlt|]; [|assumption].
    pose proof (fromYMD_jan1_mono (y + 1) 2001 ltac:(lia)). lia.
  - destruct (Z_lt_le_dec 2024 y) as [Hlt|]; [|assumption].
    pose proof (fromYMD_jan1_mono 2025 y ltac:(lia)). lia.
Qed.

Lemma filter_filter_implied {A} (p q : A -> bool) (l : list A) :
  (forall x, p x = true -> q x = true) ->
  List.filter p (List.filter q l) = List.filter p l.
Proof.
  intros Hpq. induction l as [|x l IH]; [reflexivity|]. simpl.
  destruct (q x) eqn:Hq; simpl.
  - destruct (p x); congruence.
  - destruct (p x) eqn:Hp; [|exact IH].
    apply Hpq in Hp. congruence.
Qed.

Lemma filter_none {A} (p : A -> bool) (l : list A) :
  (forall x, In x l -> p x = false) -> List.filter p l = [].
Proof.
  induction l as [|x l IH]; intros H; [reflexivity|]. simpl.
  rewrite (H x (or_introl eq_refl)). apply IH. intros z Hz. apply H. now right.
Qed.

(** For the years 2001 to 2023 the date window takes nothing away from
    the year filter. *)
Lemma year_filter_mcd12 catalog y :
  2001 <= y <= 2023 ->
  filter (Filter_calendarRange_year y y) (mcd12 catalog) =
  filter (Filter_calendarRange_year y y) catalog.
Proof.
  intros Hy. unfold filter, mcd12, filterDate.
  apply filter_filter_implied. intros img Himg.
  apply calendarRange_year_true, Date_year_iff in Himg as [Hs He].
  pose proof (fromYMD_jan1_mono 2001 y ltac:(lia)).
  pose proof (fromYMD_jan1_mono (y + 1) 2024 ltac:(lia)).
  assert (Date_fromYMD 2024 1 1 < Date_fromYMD 2024 12 31) by reflexivity.
  apply andb_true_intro. split; [apply Z.leb_le|apply Z.ltb_lt]; lia.
Qed.

(** Outside 2001 to 2024 the year filter finds nothing in the window. *)
Lemma year_filter_outside catalog y :
  y < 2001 \/ 2024 < y ->
  filter (Filter_calendarRange_year y y) (mcd12 catalog) = [].
Proof.
  intros Hy. unfold filter. apply filter_none. intros img Hin.
  pose proof (mcd12_year_range catalog img Hin) as Hr.
  destruct (Filter_calendarRange_year y y img) eqn:Hf; [|reflexivity].
  apply calendarRange_year_true in Hf. lia.
Qed.

(** The first frame of a filtered list whose earlier frames fail. *)
Lemma first_filter_skip (p : Filter) pre frame rest :
  Forall (fun f => p f = false) pre -> p frame = true ->
  first (filter p (pre ++ frame :: rest)) = Some frame.
Proof.
  intros Hpre Hp. unfold filter. induction Hpre as [|f pre Hf _ IH]; simpl.
  - now rewrite Hp.
  - now rewrite Hf.
Qed.

Lemma analysis_filter_composed catalog y :
  filter (Filter_calendarRange_year y y) (mcd12 catalog) =
  List.filter (fun img =>
      (Date_fromYMD 2001 1 1 <=? time_start img) &&
      (time_start img <? Date_fromYMD 2024 12 31) &&
      Filter_calendarRange_year y y img) catalog.
Proof.
  unfold filter, mcd12, filterDate.
  induction catalog as [|f l IH]; [reflexivity|]. simpl.
  destruct ((Date_fromYMD 2001 1 1 <=? time_start f) &&
            (time_start f <? Date_fromYMD 2024 12 31)); simpl; [|exact IH].
  destruct (Filter_calendarRange_year y y f); congruence.
Qed.

End WindowFacts.

(** ** The histogram and the region sums *)
Module HistogramFacts.
Import EE Script Spec Cells Stats RasterFacts AreaFacts.

Lemma code_count_cons c v vs :
  code_count c (v :: vs) = Z_of_bool (c =? v) + code_count c vs.
Proof. apply filter_cons_count. Qed.

Lemma code_count_nonneg c vs : 0 <= code_count c vs.
Proof. unfold code_count. lia. Qed.

(** A histogram has an entry exactly for the codes that occur, and the
    entry is the number of occurrences. *)
Lemma histogram_of_lookup vs c :
  histogram_of vs !! c =
  if code_count c vs =? 0 then None else Some (code_count c vs).
Proof.
  induction vs as [|v vs IH]; [reflexivity|].
  change (histogram_of (v :: vs)) with (count_value v (histogram_of vs)).
  unfold count_value, Histogram in *. rewrite lookup_insert, code_count_cons.
  pose proof (code_count_nonneg c vs) as Hn.
  destruct (decide (v = c)) as [->|Hne].
  - rewrite Z.eqb_refl, IH. change (Z_of_bool true) with 1.
    destruct (Z.eqb_spec (code_count c vs) 0) as [->|H0]; simpl.
    + reflexivity.
    + destruct (Z.eqb_spec (1 + code_count c vs) 0); [lia|].
      f_equal. lia.
  - destruct (Z.eqb_spec c v) as [->|_]; [congruence|].
    change (Z_of_bool false) with 0. now rewrite Z.add_0_l.
Qed.

Lemma hist_get_histogram_of vs c :
  hist_get (histogram_of vs) c = code_count c vs.
Proof.
  unfold hist_get. rewrite histogram_of_lookup.
  destruct (Z.eqb_spec (code_count c vs) 0) as [->|]; reflexivity.
Qed.

Lemma hist_total_count_value v h :
  hist_total (count_value v h) = hist_total h + 1.
Proof.
  unfold hist_total, count_value, Histogram in *.
  assert (Hcomm : forall (m : Histogram) (j1 j2 z1 z2 y : Z),
            j1 <> j2 -> m !! j1 = Some z1 -> m !! j2 = Some z2 ->
            z1 + (z2 + y) = z2 + (z1 + y)) by (intros; lia).
  destruct (h !! v) as [n|] eqn:Hv; simpl.
  - rewrite <- insert_delete_eq.
    rewrite map_fold_insert_L; [|apply Hcomm|apply lookup_delete_eq].
    rewrite (map_fold_delete_L _ _ v n h); [lia|apply Hcomm|exact Hv].
  - rewrite map_fold_insert_L; [lia|apply Hcomm|exact Hv].
Qed.

(** The entries of a histogram add up to the number of values counted. *)
Lemma hist_total_histogram_of vs :
  hist_total (histogram_of vs) = Z.of_nat (length vs).
Proof.
  induction vs as [|v vs IH]; [reflexivity|].
  change (histogram_of (v :: vs)) with (count_value v (histogram_of vs)).
  rewrite hist_total_count_value, IH. simpl length. lia.
Qed.

(** Clipping to [g] changes neither the cells of the region [g] that are
    seen nor their values. *)
Lemma region_clip g ps :
  length (List.filter (inside g) (map (clip_cell g) ps)) =
    length (List.filter (inside g) ps) /\
  unmasked (List.filter (inside g) (map (clip_cell g) ps)) =
    unmasked (List.filter (inside g) ps).
Proof.
  induction ps as [|p ps [IHl IHu]]; [split; reflexivity|].
  simpl map. simpl List.filter.
  change (inside g (clip_cell g p)) with (inside g p).
  destruct (inside g p) eqn:Hin; [|split; assumption].
  split; [simpl; congruence|].
  rewrite !unmasked_cons. unfold clip_cell at 1. simpl value. rewrite Hin.
  destruct (value p); congruence.
Qed.

Lemma reduceRegion_clip {A} (reducer : list Z -> A) frame g s mp :
  reduceRegion reducer (clip (Some frame) g) g s mp =
  reduceRegion reducer (Val frame) g s mp.
Proof.
  unfold reduceRegion, region_pixels. simpl.
  destruct (region_clip g (grid frame s)) as [Hl Hu]. now rewrite Hl, Hu.
Qed.

(** The histogram of a frame, ceiling included. *)
Lemma histogram_frame frame :
  histogram (clip (Some frame) maranhao) =
  if 10 ^ 13 <? roi_pixel_count maranhao 500 frame then Err TooManyPixels
  else Val (histogram_of (region_values maranhao 500 frame)).
Proof. unfold histogram. rewrite reduceRegion_clip. reflexivity. Qed.

(** Membership in a duplicate-free group, code by code. *)
Lemma in_group_sum group v :
  NoDup group ->
  Z_of_bool (in_group group v) =
  sum_values (map (fun c => Z_of_bool (c =? v)) group).
Proof.
  unfold in_group. induction 1 as [|c group Hnotin Hnd IH]; [reflexivity|].
  simpl existsb. simpl map.
  change (sum_values (?x :: ?l)) with (x + sum_values l). rewrite <- IH.
  destruct (Z.eqb_spec v c) as [->|Hne].
  - rewrite Z.eqb_refl. simpl orb.
    replace (existsb (Z.eqb c) group) with false; [reflexivity|].
    symmetry. apply not_true_is_false. intros Hex.
    apply existsb_exists in Hex as (x & Hx & Heq).
    apply Z.eqb_eq in Heq. subst x. apply Hnotin.
    now apply list_elem_of_In.
  - destruct (Z.eqb_spec c v); [congruence|]. reflexivity.
Qed.

Lemma sum_values_map_add {A} (f g : A -> Z) l :
  sum_values (map (fun x => f x + g x) l) =
  sum_values (map f l) + sum_values (map g l).
Proof.
  induction l as [|x l IH]; [reflexivity|]. simpl map.
  change (sum_values (?x :: ?l)) with (x + sum_values l) in *. lia.
Qed.

(** The cells matching a group are the occurrences of its codes. *)
Lemma matched_count_by_code group g s frame :
  NoDup group ->
  matched_pixel_count group g s frame =
  sum_values (map (fun c => code_count c (region_values g s frame)) group).
Proof.
  intros Hnd. unfold matched_pixel_count, region_values, region_pixels.
  induction (grid frame s) as [|p ps IH].
  - simpl. induction group as [|c group IHg]; [reflexivity|].
    simpl map. change (sum_values (?x :: ?l)) with (x + sum_values l).
    rewrite <- IHg; [reflexivity|]. now inversion Hnd.
  - rewrite filter_cons_count, IH. simpl List.filter. unfold matches at 1.
    destruct (inside g p); simpl andb; [|reflexivity].
    rewrite unmasked_cons. destruct (value p) as [v|]; [|reflexivity].
    rewrite (in_group_sum group v Hnd), <- sum_values_map_add.
    f_equal. apply map_ext. intros c. now rewrite code_count_cons.
Qed.

Lemma NoDup_groups : NoDup Forest /\ NoDup Savanna /\ NoDup Agriculture.
Proof.
  repeat split; apply NoDup_ListNoDup;
    repeat (constructor; [simpl; lia|]); constructor.
Qed.

Lemma hist_group_histogram_of group g s frame :
  NoDup group ->
  hist_group (histogram_of (region_values g s frame)) group =
  matched_pixel_count group g s frame.
Proof.
  intros Hnd. rewrite (matched_count_by_code group g s frame Hnd).
  unfold hist_group. f_equal. apply map_ext. intros c.
  apply hist_get_histogram_of.
Qed.

(** Adding a cell: what the region sees. *)
Lemma roi_count_add g s p frame :
  roi_pixel_count g s (add_pixel p frame) =
  Z_of_bool (inside g p) + roi_pixel_count g s frame.
Proof. unfold roi_pixel_count, region_pixels. apply filter_cons_count. Qed.

Lemma matched_count_add group g s p frame :
  matched_pixel_count group g s (add_pixel p frame) =
  Z_of_bool (matches group g p) + matched_pixel_count group g s frame.
Proof. unfold matched_pixel_count. apply filter_cons_count. Qed.

Lemma region_values_add g s p frame :
  region_values g s (add_pixel p frame) =
  match (if inside g p then value p else None) with
  | Some v => v :: region_values g s frame
  | None => region_values g s frame
  end.
Proof.
  unfold region_values, region_pixels. simpl grid. simpl List.filter.
  destruct (inside g p); [apply unmasked_cons|reflexivity].
Qed.

Lemma unmasked_length ps : (length (unmasked ps) <= length ps)%nat.
Proof.
  induction ps as [|p ps IH]; [reflexivity|]. rewrite unmasked_cons.
  destruct (value p); simpl; lia.
Qed.

End HistogramFacts.

(** ** The loops of the script *)
Module LoopFacts.
Import Calendar CalendarFacts EE Script Spec Cells Stats.
Import DateFacts BatchFacts RasterFacts AreaFacts WindowFacts HistogramFacts.

Lemma export_name_inj (y1 y2 : Z) :
  "MCD12Q1_Maranhao_" +:+ pretty y1 = "MCD12Q1_Maranhao_" +:+ pretty y2 ->
  y1 = y2.
Proof.
  intros H. apply (inj (String.append "MCD12Q1_Maranhao_")) in H.
  now apply (inj pretty) in H.
Qed.

Lemma export_names catalog years st :
  map description (tasks (forEach (exportYear catalog) years st)) =
  map description (tasks st)
  ++ map (fun y => "MCD12Q1_Maranhao_" +:+ pretty y) years.
Proof.
  apply forEach_export_tasks. intros y st' t Ht.
  destruct (exportYear_task catalog y st') as (t' & Ht' & _ & Hd & _).
  rewrite Ht' in Ht. apply app_inv_head in Ht. now injection Ht as <-.
Qed.

Lemma export_prefixes catalog years st :
  map fileNamePrefix (tasks (forEach (exportYear catalog) years st)) =
  map fileNamePrefix (tasks st)
  ++ map (fun y => "MCD12Q1_Maranhao_" +:+ pretty y) years.
Proof.
  apply forEach_export_tasks. intros y st' t Ht.
  destruct (exportYear_task catalog y st') as (t' & Ht' & _ & _ & Hp).
  rewrite Ht' in Ht. apply app_inv_head in Ht. now injection Ht as <-.
Qed.

Lemma export_names_fresh catalog years st :
  tasks st = [] ->
  map description (tasks (forEach (exportYear catalog) years st)) =
    map (fun y => "MCD12Q1_Maranhao_" +:+ pretty y) years /\
  map fileNamePrefix (tasks (forEach (exportYear catalog) years st)) =
    map (fun y => "MCD12Q1_Maranhao_" +:+ pretty y) years.
Proof. intros Hst. now rewrite export_names, export_prefixes, Hst. Qed.

Lemma NoDup_export_names (years : list Z) :
  NoDup years ->
  NoDup (map (fun y => "MCD12Q1_Maranhao_" +:+ pretty y) years).
Proof.
  intros Hnd. change (map ?f ?l) with (f <$> l).
  apply NoDup_fmap_2; [|exact Hnd].
  intros y1 y2. apply export_name_inj.
Qed.

(** The state the export loop of the script starts from has no task. *)
Lemma script_tasks_eq catalog :
  exists st, tasks st = [] /\
    script catalog = forEach (exportYear catalog) (List_sequence 2001 2024) st.
Proof.
  eexists. split; [|unfold script; cbv zeta; reflexivity].
  rewrite !print_tasks, forEach_analyze_tasks. reflexivity.
Qed.

(** The export loop files a task for each of its years. *)
Lemma export_task_of_year catalog years y : forall st,
  In y years ->
  exists t, In t (tasks (forEach (exportYear catalog) years st)) /\
    image t = exportImage catalog y /\
    description t = "MCD12Q1_Maranhao_" +:+ pretty y.
Proof.
  induction years as [|y0 years IH]; intros st Hin; [destruct Hin|].
  rewrite forEach_cons. destruct Hin as [->|Hin].
  - destruct (exportYear_task catalog y st) as (t & Ht & Hi & Hd & _).
    exists t. split; [|split; assumption].
    assert (Hkeep : forall l s, In t (tasks s) ->
              In t (tasks (forEach (exportYear catalog) l s))).
    { induction l as [|z l IHl]; intros s Hs; [exact Hs|].
      rewrite forEach_cons. apply IHl.
      destruct (exportYear_task catalog z s) as (t' & Ht' & _).
      rewrite Ht'. apply in_or_app. now left. }
    apply Hkeep. rewrite Ht. apply in_or_app. right. now left.
  - apply IH, Hin.
Qed.

Lemma export_is_analysis catalog y :
  exportImage catalog y = analysisImage catalog y.
Proof.
  unfold analysisImage, exportImage. cbv zeta. f_equal. f_equal.
  unfold filter, filterDate. apply filter_ext.
  intros img. symmetry. apply year_filters_agree.
Qed.

(** Sums over a test applied with or without clipping first. *)
Lemma region_mapped g m ps :
  length (List.filter (inside g) (map (map_cell m) ps)) =
    length (List.filter (inside g) (map (masked_cell g m) ps)) /\
  unmasked (List.filter (inside g) (map (map_cell m) ps)) =
    unmasked (List.filter (inside g) (map (masked_cell g m) ps)).
Proof.
  induction ps as [|p ps [IHl IHu]]; [split; reflexivity|].
  simpl map. simpl List.filter.
  change (inside g (map_cell m p)) with (inside g p).
  change (inside g (masked_cell g m p)) with (inside g p).
  destruct (inside g p) eqn:Hin; [|split; assumption].
  split; [simpl; congruence|].
  rewrite !unmasked_cons. unfold masked_cell, map_cell, clip_cell.
  simpl value. rewrite Hin. destruct (value p); simpl; [f_equal|]; exact IHu.
Qed.

Lemma reduce_test_clip {A} (reducer : list Z -> A) op f1 f2 frame g s mp :
  reduceRegion reducer
    (Val (zip_image op (map_image f1 (clip_image g frame))
                       (map_image f2 (clip_image g frame)))) g s mp =
  reduceRegion reducer
    (Val (zip_image op (map_image f1 frame) (map_image f2 frame))) g s mp.
Proof.
  unfold reduceRegion, region_pixels.
  change (Val ?i ≫= ?k) with (k i). cbv beta.
  rewrite grid_zip_clip, grid_zip_map.
  destruct (region_mapped g (fun c => op (f1 c) (f2 c)) (grid frame s))
    as [Hl Hu].
  now rewrite Hl, Hu.
Qed.

Lemma areas_add_pixel frame p :
  roi_pixel_count maranhao 500 (add_pixel p frame) <= 10 ^ 13 ->
  roi_pixel_count maranhao 500 frame <= 10 ^ 13.
Proof. rewrite roi_count_add. destruct (inside maranhao p); simpl; lia. Qed.

End LoopFacts.

(** ** Further properties of the script *)
Section FurtherProperties.
Import Calendar CalendarFacts EE Script Spec Cells Samples Stats.
Import DateFacts BatchFacts RasterFacts AreaFacts.
Import WindowFacts HistogramFacts LoopFacts.

(** X1: a year before 2001 or after 2024 never resolves to a frame,
    whatever the catalogue holds: the date window of [mcd12] has removed
    every frame of such a year, and both the analysis and the export of
    that year end in the "Image.clip" error. *)
Theorem years_outside_window_fail (catalog : ImageCollection) (y : Z) :
  y < 2001 \/ 2024 < y ->
  analysisImage catalog y = Err (NullInput "Image.clip") /\
  exportImage catalog y = Err (NullInput "Image.clip") /\
  forestAreaKm2 (analysisImage catalog y) = Err (NullInput "Image.clip").
Proof.
  intros Hy. rewrite export_is_analysis. unfold analysisImage.
  rewrite (year_filter_outside catalog y Hy). repeat split.
Qed.

Lemma years_outside_window_fail_witness :
  (2000 < 2001 \/ 2024 < 2000) /\
  Date_year (time_start (frame_at (Date_fromYMD 2000 1 1))) = 2000 /\
  analysisImage [frame_at (Date_fromYMD 2000 1 1)] 2000 =
    Err (NullInput "Image.clip") /\
  exportImage [frame_at (Date_fromYMD 2000 1 1)] 2000 =
    Err (NullInput "Image.clip").
Proof.
  assert (Hy : 2000 < 2001 \/ 2024 < 2000) by (left; lia).
  destruct (years_outside_window_fail [frame_at (Date_fromYMD 2000 1 1)] 2000 Hy)
    as (Ha & He & _).
  exact (conj Hy (conj eq_refl (conj Ha He))).
Defined.

(** X2: for the years 2001 to 2023 the date window of [mcd12] is
    transparent: the analysis and the export of such a year work on the
    first frame of that year in the whole catalogue. *)
Theorem window_transparent_2001_2023 (catalog : ImageCollection) (y : Z) :
  2001 <= y <= 2023 ->
  analysisImage catalog y =
    clip (first (filter (Filter_calendarRange_year y y) catalog)) maranhao /\
  exportImage catalog y =
    clip (first (filter (Filter_calendarRange_year y y) catalog)) maranhao.
Proof.
  intros Hy. rewrite export_is_analysis. unfold analysisImage.
  now rewrite (year_filter_mcd12 catalog y Hy).
Qed.

Lemma window_transparent_2001_2023_witness :
  2001 <= 2003 <= 2023 /\
  analysisImage catalog_gap 2003 =
    clip (first (filter (Filter_calendarRange_year 2003 2003) catalog_gap))
         maranhao.
Proof.
  assert (Hy : 2001 <= 2003 <= 2023) by lia.
  exact (conj Hy (proj1 (window_transparent_2001_2023 catalog_gap 2003 Hy))).
Defined.

(** X3: for 2024 the window is not transparent: when every frame of 2024
    in the catalogue was acquired on or after 2024-12-31, the year 2024
    resolves to nothing, although the catalogue has frames of 2024. *)
Theorem late_2024_frames_are_lost (catalog : ImageCollection) :
  (forall frame, In frame catalog ->
     Date_year (time_start frame) = 2024 ->
     Date_fromYMD 2024 12 31 <= time_start frame) ->
  analysisImage catalog 2024 = Err (NullInput "Image.clip") /\
  exportImage catalog 2024 = Err (NullInput "Image.clip").
Proof.
  intros Hlate. rewrite export_is_analysis. unfold analysisImage.
  replace (filter (Filter_calendarRange_year 2024 2024) (mcd12 catalog))
    with (@nil Image); [split; reflexivity|].
  symmetry. unfold filter. apply filter_none. intros img Hin.
  apply filterDate_In in Hin as [Hin [_ Hhi]].
  destruct (Filter_calendarRange_year 2024 2024 img) eqn:Hf; [|reflexivity].
  apply calendarRange_year_true in Hf.
  specialize (Hlate img Hin Hf). lia.
Qed.

Lemma late_2024_frames_are_lost_witness :
  Date_year (time_start frame_end_date) = 2024 /\
  analysisImage [frame_end_date] 2024 = Err (NullInput "Image.clip") /\
  exportImage [frame_end_date] 2024 = Err (NullInput "Image.clip").
Proof.
  split; [reflexivity|].
  apply (late_2024_frames_are_lost [frame_end_date]).
  intros frame [<-|[]] _. vm_compute. discriminate.
Defined.

(** X4: when several frames of the catalogue fall in the requested year,
    the first one in catalogue order is taken and the later ones are
    ignored, in the analysis and in the export alike. *)
Theorem first_frame_of_year_wins (pre rest : ImageCollection) (frame : Image)
    (y : Z) :
  Forall (fun f => Date_year (time_start f) <> y) pre ->
  Date_year (time_start frame) = y ->
  Date_fromYMD 2001 1 1 <= time_start frame < Date_fromYMD 2024 12 31 ->
  analysisImage (pre ++ frame :: rest) y = Val (clip_image maranhao frame) /\
  exportImage (pre ++ frame :: rest) y = Val (clip_image maranhao frame).
Proof.
  intros Hpre Hy Hwin. rewrite export_is_analysis. unfold analysisImage.
  rewrite analysis_filter_composed.
  rewrite (first_filter_skip _ pre frame rest); [split; reflexivity| |].
  - eapply Forall_impl; [exact Hpre|]. intros f Hf. simpl in Hf.
    destruct (Filter_calendarRange_year y y f) eqn:Hc.
    + apply calendarRange_year_true in Hc. contradiction.
    + apply andb_false_r.
  - apply andb_true_intro. split.
    + apply andb_true_intro. split; [apply Z.leb_le|apply Z.ltb_lt]; lia.
    + now apply calendarRange_year_true.
Qed.

Lemma first_frame_of_year_wins_witness :
  Date_year (time_start frame2001_june) = 2001 /\
  analysisImage [frame2003; frame2001; frame2001_june] 2001 =
    Val (clip_image maranhao frame2001) /\
  exportImage [frame2003; frame2001; frame2001_june] 2001 =
    Val (clip_image maranhao frame2001).
Proof.
  split; [reflexivity|].
  apply (first_frame_of_year_wins [frame2003] [frame2001_june] frame2001 2001).
  - constructor; [vm_compute; discriminate|constructor].
  - reflexivity.
  - split; [vm_compute; discriminate|vm_compute; reflexivity].
Defined.

(** X5: clipping the frame to Maranhao before reducing over Maranhao
    changes nothing: the histogram, the forest count and the three areas
    are those of the unclipped frame. *)
Theorem clip_before_reduce_is_redundant (frame : Image) :
  histogram (clip (Some frame) maranhao) = histogram (Val frame) /\
  forestPixelCount (clip (Some frame) maranhao) = forestPixelCount (Val frame) /\
  forestAreaKm2 (clip (Some frame) maranhao) = forestAreaKm2 (Val frame) /\
  savannaAreaKm2 (clip (Some frame) maranhao) = savannaAreaKm2 (Val frame) /\
  cropAreaKm2 (clip (Some frame) maranhao) = cropAreaKm2 (Val frame).
Proof.
  unfold histogram, forestAreaKm2, savannaAreaKm2, cropAreaKm2, forestPixelCount.
  split; [apply reduceRegion_clip|].
  assert (HF : reduceRegion Reducer_sum (forest (clip (Some frame) maranhao))
                 maranhao 500 (10 ^ 13) =
               reduceRegion Reducer_sum (forest (Val frame))
                 maranhao 500 (10 ^ 13)) by apply reduce_test_clip.
  assert (HS : reduceRegion Reducer_sum (savanna (clip (Some frame) maranhao))
                 maranhao 500 (10 ^ 13) =
               reduceRegion Reducer_sum (savanna (Val frame))
                 maranhao 500 (10 ^ 13)) by apply reduce_test_clip.
  assert (HA : reduceRegion Reducer_sum (cropland (clip (Some frame) maranhao))
                 maranhao 500 (10 ^ 13) =
               reduceRegion Reducer_sum (cropland (Val frame))
                 maranhao 500 (10 ^ 13)) by apply reduce_test_clip.
  rewrite HF, HS, HA. repeat split.
Qed.

(** X6: within the pixel ceiling the printed histogram has an entry
    exactly for the class codes that occur among the unmasked cells of the
    frame inside Maranhao, and the entry is the number of those cells; a
    code that does not occur has no entry. *)
Theorem histogram_counts_codes (frame : Image) :
  roi_pixel_count maranhao 500 frame <= 10 ^ 13 ->
  exists h : gmap Z Z,
    histogram (clip (Some frame) maranhao) = Val h /\
    forall c : Z,
      h !! c =
      if code_count c (region_values maranhao 500 frame) =? 0 then None
      else Some (code_count c (region_values maranhao 500 frame)).
Proof.
  intros Hmax. apply Z.ltb_ge in Hmax.
  exists (histogram_of (region_values maranhao 500 frame)).
  rewrite histogram_frame, Hmax. split; [reflexivity|].
  intros c. apply histogram_of_lookup.
Qed.

Lemma histogram_counts_codes_witness :
  roi_pixel_count maranhao 500 frame2001 <= 10 ^ 13 /\
  exists h : gmap Z Z,
    histogram (clip (Some frame2001) maranhao) = Val h /\
    h !! 2 = Some 6 /\ h !! 9 = Some 1 /\ h !! 10 = None /\ h !! 1 = None.
Proof.
  assert (Hmax : roi_pixel_count maranhao 500 frame2001 <= 10 ^ 13)
    by (vm_compute; discriminate).
  split; [exact Hmax|].
  destruct (histogram_counts_codes frame2001 Hmax) as (h & Hh & Hc).
  exists h. split; [exact Hh|].
  rewrite (Hc 2), (Hc 9), (Hc 10), (Hc 1). repeat split.
Defined.

(** X7: within the pixel ceiling the entries of the printed histogram add
    up to the number of unmasked cells inside Maranhao, which is at most
    the number of cells inside Maranhao. *)
Theorem histogram_total_is_unmasked_count (frame : Image) :
  roi_pixel_count maranhao 500 frame <= 10 ^ 13 ->
  exists h : gmap Z Z,
    histogram (clip (Some frame) maranhao) = Val h /\
    hist_total h = Z.of_nat (length (region_values maranhao 500 frame)) /\
    hist_total h <= roi_pixel_count maranhao 500 frame.
Proof.
  intros Hmax. apply Z.ltb_ge in Hmax.
  exists (histogram_of (region_values maranhao 500 frame)).
  rewrite histogram_frame, Hmax, hist_total_histogram_of.
  split; [reflexivity|]. split; [reflexivity|].
  unfold region_values, roi_pixel_count.
  pose proof (unmasked_length (region_pixels maranhao 500 frame)). lia.
Qed.

Lemma histogram_total_is_unmasked_count_witness :
  roi_pixel_count maranhao 500 frame2001 = 12 /\
  exists h : gmap Z Z,
    histogram (clip (Some frame2001) maranhao) = Val h /\ hist_total h = 11.
Proof.
  split; [reflexivity|].
  assert (Hmax : roi_pixel_count maranhao 500 frame2001 <= 10 ^ 13)
    by (vm_compute; discriminate).
  destruct (histogram_total_is_unmasked_count frame2001 Hmax)
    as (h & Hh & Ht & _).
  exists h. split; [exact Hh|]. rewrite Ht. reflexivity.
Defined.

(** X8: the group sums agree with the histogram of the same frame: within
    the pixel ceiling the forest count is the sum of the histogram entries
    of the forest codes 1 to 5, and the savanna and agriculture areas are a
    quarter of the sums of the entries of 6 to 9 and of 12 and 14. *)
Theorem group_sums_agree_with_histogram (frame : Image) :
  roi_pixel_count maranhao 500 frame <= 10 ^ 13 ->
  exists h : gmap Z Z,
    histogram (clip (Some frame) maranhao) = Val h /\
    forestPixelCount (clip (Some frame) maranhao) =
      Val (inject_Z (hist_group h Forest)) /\
    forestAreaKm2 (clip (Some frame) maranhao) =
      Val (inject_Z (hist_group h Forest) * 0.25)%Q /\
    savannaAreaKm2 (clip (Some frame) maranhao) =
      Val (inject_Z (hist_group h Savanna) * 0.25)%Q /\
    cropAreaKm2 (clip (Some frame) maranhao) =
      Val (inject_Z (hist_group h Agriculture) * 0.25)%Q.
Proof.
  intros Hmax. destruct (areas_of_frame frame Hmax) as (HF & HS & HA).
  destruct NoDup_groups as (NF & NS & NA).
  exists (histogram_of (region_values maranhao 500 frame)).
  rewrite !hist_group_histogram_of by assumption.
  rewrite HF, HS, HA, histogram_frame, forestPixelCount_frame.
  apply Z.ltb_ge in Hmax. rewrite Hmax. repeat split.
Qed.

Lemma group_sums_agree_with_histogram_witness :
  roi_pixel_count maranhao 500 frame2001 <= 10 ^ 13 /\
  exists h : gmap Z Z,
    histogram (clip (Some frame2001) maranhao) = Val h /\
    forestPixelCount (clip (Some frame2001) maranhao) =
      Val (inject_Z (hist_group h Forest)).
Proof.
  assert (Hmax : roi_pixel_count maranhao 500 frame2001 <= 10 ^ 13)
    by (vm_compute; discriminate).
  split; [exact Hmax|].
  destruct (group_sums_agree_with_histogram frame2001 Hmax)
    as (h & Hh & HF & _).
  exists h. exact (conj Hh HF).
Defined.

(** X9: a frame none of whose cells lies in Maranhao gives an empty
    histogram, a forest count of 0 and three areas of 0, not an error. *)
Theorem frame_without_region_cells (frame : Image) :
  roi_pixel_count maranhao 500 frame = 0 ->
  histogram (clip (Some frame) maranhao) = Val ∅ /\
  forestPixelCount (clip (Some frame) maranhao) = Val 0%Q /\
  area_of_pixels 500 (forestAreaKm2 (clip (Some frame) maranhao)) 0 /\
  area_of_pixels 500 (savannaAreaKm2 (clip (Some frame) maranhao)) 0 /\
  area_of_pixels 500 (cropAreaKm2 (clip (Some frame) maranhao)) 0.
Proof.
  intros H0.
  assert (Hmax : roi_pixel_count maranhao 500 frame <= 10 ^ 13) by lia.
  destruct (areas_of_frame frame Hmax) as (HF & HS & HA).
  pose proof (matched_counts_le_roi maranhao (grid frame 500)) as Hle.
  fold (matched_pixel_count Forest maranhao 500 frame) in Hle.
  fold (matched_pixel_count Savanna maranhao 500 frame) in Hle.
  fold (matched_pixel_count Agriculture maranhao 500 frame) in Hle.
  fold (region_pixels maranhao 500 frame) in Hle.
  fold (roi_pixel_count maranhao 500 frame) in Hle.
  pose proof (matched_count_nonneg Forest maranhao 500 frame).
  pose proof (matched_count_nonneg Savanna maranhao 500 frame).
  pose proof (matched_count_nonneg Agriculture maranhao 500 frame).
  assert (EF : matched_pixel_count Forest maranhao 500 frame = 0) by lia.
  assert (ES : matched_pixel_count Savanna maranhao 500 frame = 0) by lia.
  assert (EA : matched_pixel_count Agriculture maranhao 500 frame = 0) by lia.
  rewrite HF, HS, HA, histogram_frame, forestPixelCount_frame, EF, ES, EA.
  apply Z.ltb_ge in Hmax. rewrite Hmax.
  assert (Hv : region_values maranhao 500 frame = []).
  { unfold region_values. unfold roi_pixel_count in H0.
    destruct (region_pixels maranhao 500 frame); [reflexivity|].
    simpl length in H0. lia. }
  rewrite Hv.
  split; [reflexivity|]. split; [reflexivity|].
  repeat split; apply area_of_pixels_quarter.
Qed.

Lemma frame_without_region_cells_witness :
  roi_pixel_count maranhao 500 frame_elsewhere = 0 /\
  histogram (clip (Some frame_elsewhere) maranhao) = Val ∅ /\
  forestPixelCount (clip (Some frame_elsewhere) maranhao) = Val 0%Q.
Proof.
  split; [reflexivity|].
  destruct (frame_without_region_cells frame_elsewhere eq_refl)
    as (Hh & HF & _).
  exact (conj Hh HF).
Defined.


(** X12: export tasks filed for pairwise different years have pairwise
    different descriptions and file name prefixes; the whole script files
    24 tasks, no two with the same description or prefix. *)
Theorem export_names_never_collide (catalog : ImageCollection)
    (years : list Z) :
  NoDup years ->
  NoDup (map description (tasks (forEach (exportYear catalog) years initial))) /\
  NoDup (map fileNamePrefix
           (tasks (forEach (exportYear catalog) years initial))) /\
  length (tasks (script catalog)) = 24%nat /\
  NoDup (map description (tasks (script catalog))) /\
  NoDup (map fileNamePrefix (tasks (script catalog))).
Proof.
  intros Hnd.
  destruct (export_names_fresh catalog years initial eq_refl) as [-> ->].
  split; [now apply NoDup_export_names|].
  split; [now apply NoDup_export_names|].
  destruct (script_tasks_eq catalog) as (st & Hst & ->).
  destruct (export_names_fresh catalog (List_sequence 2001 2024) st Hst)
    as [Hd Hp].
  split.
  - rewrite <- (length_map description), Hd, length_map. reflexivity.
  - rewrite Hd, Hp. split; apply NoDup_export_names, NoDup_seqZ.
Qed.

Lemma export_names_never_collide_witness :
  NoDup [2001; 2002] /\
  NoDup (map description
           (tasks (forEach (exportYear catalog_gap) [2001; 2002] initial))).
Proof.
  assert (Hnd : NoDup [2001; 2002]).
  { apply NoDup_ListNoDup.
    constructor; [simpl; lia|]. constructor; [simpl; lia|]. constructor. }
  exact (conj Hnd (proj1 (export_names_never_collide catalog_gap _ Hnd))).
Defined.

(** X13: when a frame of the script's collection is the only one of its
    year, the script files a task that exports exactly this frame,
    clipped to Maranhao, under the name of its year: no such frame is
    left out of the export. *)
Theorem every_yearly_frame_is_exported (catalog : ImageCollection)
    (frame : Image) :
  In frame (mcd12 catalog) ->
  (forall f, In f (mcd12 catalog) ->
     Date_year (time_start f) = Date_year (time_start frame) -> f = frame) ->
  exists t : ExportTask,
    In t (tasks (script catalog)) /\
    image t = Val (clip_image maranhao frame) /\
    description t =
      "MCD12Q1_Maranhao_" +:+ pretty (Date_year (time_start frame)).
Proof.
  intros Hin Huniq.
  pose proof (mcd12_year_range catalog frame Hin) as Hy.
  revert Huniq Hy. generalize (eq_refl (Date_year (time_start frame))).
  generalize (Date_year (time_start frame)) at 1 3 4 5 6 as y.
  intros y Hyear Huniq Hy.
  assert (Hseq : In y (List_sequence 2001 2024)).
  { apply list_elem_of_In, elem_of_seqZ. lia. }
  destruct (script_tasks_eq catalog) as (st & _ & ->).
  destruct (export_task_of_year catalog _ y st Hseq) as (t & Ht & Hi & Hd).
  exists t. split; [exact Ht|]. split; [|exact Hd].
  rewrite Hi, export_is_analysis. unfold analysisImage.
  destruct (first (filter (Filter_calendarRange_year y y) (mcd12 catalog)))
    as [f|] eqn:Hfirst.
  - apply first_In in Hfirst. unfold filter in Hfirst.
    apply filter_In in Hfirst as [Hf Hfy].
    apply calendarRange_year_true in Hfy.
    rewrite (Huniq f Hf Hfy). reflexivity.
  - apply first_None in Hfirst.
    assert (Hfr : In frame (filter (Filter_calendarRange_year y y)
                              (mcd12 catalog))).
    { unfold filter. apply filter_In. split; [exact Hin|].
      apply calendarRange_year_true. symmetry. exact Hyear. }
    rewrite Hfirst in Hfr. destruct Hfr.
Qed.

Lemma every_yearly_frame_is_exported_witness :
  In frame2003 (mcd12 catalog_gap) /\
  exists t : ExportTask,
    In t (tasks (script catalog_gap)) /\
    image t = Val (clip_image maranhao frame2003) /\
    description t = "MCD12Q1_Maranhao_2003".
Proof.
  assert (Hin : In frame2003 (mcd12 catalog_gap)) by (right; left; reflexivity).
  split; [exact Hin|].
  apply (every_yearly_frame_is_exported catalog_gap frame2003 Hin).
  intros f [<-|[<-|[]]] Hy; [|reflexivity].
  vm_compute in Hy. discriminate Hy.
Defined.

(** X14: the interval [exportYear] selects frames from starts at the first
    instant of the year and is as long as the year: 366 days for a leap
    year, 365 days otherwise. *)
Theorem export_interval_spans_the_year (y : Z) :
  Date_advance_year 1 (Date_fromYMD y 1 1) - Date_fromYMD y 1 1 =
  (if is_leap y then 366 else 365) * msPerDay.
Proof.
  rewrite advance_year_jan1, !fromYMD_jan1, <- year_length. lia.
Qed.

(** X15: a cell outside Maranhao changes nothing: the histogram, the
    forest count and the three areas of a frame are the same with and
    without such a cell. *)
Theorem cell_outside_region_changes_nothing (frame : Image) (p : Pixel) :
  inside maranhao p = false ->
  histogram (clip (Some (add_pixel p frame)) maranhao) =
    histogram (clip (Some frame) maranhao) /\
  forestPixelCount (clip (Some (add_pixel p frame)) maranhao) =
    forestPixelCount (clip (Some frame) maranhao) /\
  forestAreaKm2 (clip (Some (add_pixel p frame)) maranhao) =
    forestAreaKm2 (clip (Some frame) maranhao) /\
  savannaAreaKm2 (clip (Some (add_pixel p frame)) maranhao) =
    savannaAreaKm2 (clip (Some frame) maranhao) /\
  cropAreaKm2 (clip (Some (add_pixel p frame)) maranhao) =
    cropAreaKm2 (clip (Some frame) maranhao).
Proof.
  intros Hout.
  unfold forestAreaKm2, savannaAreaKm2, cropAreaKm2.
  rewrite !histogram_frame, !forestPixelCount_frame, !savannaCount_frame,
    !cropCount_frame.
  rewrite roi_count_add, !matched_count_add, region_values_add.
  unfold matches. rewrite Hout. simpl andb. simpl Z_of_bool.
  rewrite !Z.add_0_l. repeat split.
Qed.

Lemma cell_outside_region_changes_nothing_witness :
  inside maranhao (cell 0 0 (Some 2)) = false /\
  histogram (clip (Some (add_pixel (cell 0 0 (Some 2)) frame2001)) maranhao) =
    histogram (clip (Some frame2001) maranhao) /\
  forestAreaKm2 (clip (Some (add_pixel (cell 0 0 (Some 2)) frame2001)) maranhao) =
    forestAreaKm2 (clip (Some frame2001) maranhao).
Proof.
  split; [reflexivity|].
  destruct (cell_outside_region_changes_nothing frame2001 (cell 0 0 (Some 2))
              eq_refl) as (Hh & _ & HF & _).
  exact (conj Hh HF).
Defined.

(** X16: a masked cell inside Maranhao adds to no count: as long as the
    pixel ceiling holds, the histogram, the forest count and the three
    areas are the same with and without it. *)
Theorem masked_cell_changes_nothing (frame : Image) (p : Pixel) :
  value p = None ->
  roi_pixel_count maranhao 500 (add_pixel p frame) <= 10 ^ 13 ->
  histogram (clip (Some (add_pixel p frame)) maranhao) =
    histogram (clip (Some frame) maranhao) /\
  forestPixelCount (clip (Some (add_pixel p frame)) maranhao) =
    forestPixelCount (clip (Some frame) maranhao) /\
  forestAreaKm2 (clip (Some (add_pixel p frame)) maranhao) =
    forestAreaKm2 (clip (Some frame) maranhao) /\
  savannaAreaKm2 (clip (Some (add_pixel p frame)) maranhao) =
    savannaAreaKm2 (clip (Some frame) maranhao) /\
  cropAreaKm2 (clip (Some (add_pixel p frame)) maranhao) =
    cropAreaKm2 (clip (Some frame) maranhao).
Proof.
  intros Hv Hmax'. pose proof (areas_add_pixel frame p Hmax') as Hmax.
  unfold forestAreaKm2, savannaAreaKm2, cropAreaKm2.
  rewrite !histogram_frame, !forestPixelCount_frame, !savannaCount_frame,
    !cropCount_frame.
  apply Z.ltb_ge in Hmax, Hmax'. rewrite Hmax, Hmax'.
  rewrite !matched_count_add, region_values_add.
  unfold matches. rewrite Hv, !andb_false_r. simpl Z_of_bool.
  rewrite !Z.add_0_l. destruct (inside maranhao p); repeat split.
Qed.

Lemma masked_cell_changes_nothing_witness :
  inside maranhao (cell 1 1 None) = true /\
  roi_pixel_count maranhao 500 (add_pixel (cell 1 1 None) frame2001) = 13 /\
  histogram (clip (Some (add_pixel (cell 1 1 None) frame2001)) maranhao) =
    histogram (clip (Some frame2001) maranhao) /\
  cropAreaKm2 (clip (Some (add_pixel (cell 1 1 None) frame2001)) maranhao) =
    cropAreaKm2 (clip (Some frame2001) maranhao).
Proof.
  split; [reflexivity|]. split; [reflexivity|].
  assert (Hmax : roi_pixel_count maranhao 500
                   (add_pixel (cell 1 1 None) frame2001) <= 10 ^ 13)
    by (vm_compute; discriminate).
  destruct (masked_cell_changes_nothing frame2001 (cell 1 1 None)
              eq_refl Hmax) as (Hh & _ & _ & _ & HA).
  exact (conj Hh HA).
Defined.

(** X17: an unmasked cell of code [c] inside Maranhao adds a quarter of
    a square kilometre to the area of the group of [c] and nothing to the
    other two areas, as long as the pixel ceiling holds. *)
Theorem cell_adds_quarter_to_its_group (frame : Image) (p : Pixel) (c : Z) :
  inside maranhao p = true ->
  value p = Some c ->
  roi_pixel_count maranhao 500 (add_pixel p frame) <= 10 ^ 13 ->
  exists aF aS aA aF' aS' aA' : Q,
    forestAreaKm2 (clip (Some frame) maranhao) = Val aF /\
    savannaAreaKm2 (clip (Some frame) maranhao) = Val aS /\
    cropAreaKm2 (clip (Some frame) maranhao) = Val aA /\
    forestAreaKm2 (clip (Some (add_pixel p frame)) maranhao) = Val aF' /\
    savannaAreaKm2 (clip (Some (add_pixel p frame)) maranhao) = Val aS' /\
    cropAreaKm2 (clip (Some (add_pixel p frame)) maranhao) = Val aA' /\
    (aF' == aF + (if in_group Forest c then 0.25 else 0) /\
     aS' == aS + (if in_group Savanna c then 0.25 else 0) /\
     aA' == aA + (if in_group Agriculture c then 0.25 else 0))%Q.
Proof.
  intros Hin Hv Hmax'. pose proof (areas_add_pixel frame p Hmax') as Hmax.
  destruct (areas_of_frame _ Hmax) as (HF & HS & HA).
  destruct (areas_of_frame _ Hmax') as (HF' & HS' & HA').
  do 6 eexists.
  split; [exact HF|]. split; [exact HS|]. split; [exact HA|].
  split; [exact HF'|]. split; [exact HS'|]. split; [exact HA'|].
  rewrite !matched_count_add. unfold matches. rewrite Hin, Hv, !andb_true_l.
  repeat split.
  - destruct (in_group Forest c); simpl Z_of_bool;
      rewrite inject_Z_plus; ring.
  - destruct (in_group Savanna c); simpl Z_of_bool;
      rewrite inject_Z_plus; ring.
  - destruct (in_group Agriculture c); simpl Z_of_bool;
      rewrite inject_Z_plus; ring.
Qed.

Lemma cell_adds_quarter_to_its_group_witness :
  inside maranhao (cell 1 1 (Some 14)) = true /\
  exists aF aA aF' aA' : Q,
    forestAreaKm2 (clip (Some frame2001) maranhao) = Val aF /\
    cropAreaKm2 (clip (Some frame2001) maranhao) = Val aA /\
    forestAreaKm2 (clip (Some (add_pixel (cell 1 1 (Some 14)) frame2001))
                        maranhao) = Val aF' /\
    cropAreaKm2 (clip (Some (add_pixel (cell 1 1 (Some 14)) frame2001))
                      maranhao) = Val aA' /\
    (aF' == aF + 0 /\ aA' == aA + 0.25)%Q.
Proof.
  split; [reflexivity|].
  assert (Hmax : roi_pixel_count maranhao 500
                   (add_pixel (cell 1 1 (Some 14)) frame2001) <= 10 ^ 13)
    by (vm_compute; discriminate).
  destruct (cell_adds_quarter_to_its_group frame2001 (cell 1 1 (Some 14)) 14
              eq_refl eq_refl Hmax)
    as (aF & aS & aA & aF' & aS' & aA' & HF & _ & HA & HF' & _ & HA' &
        EF & _ & EA).
  exists aF, aA, aF', aA'. repeat split; assumption.
Defined.

End FurtherProperties.
